(** * createListingComposable: the listing composable of shopware-pwa

    A shallow embedding of
    [packages/composables/src/factories/createListingComposable.ts].

    The composable is dynamically typed JavaScript at run time: listings,
    search criteria and router queries are plain objects whose fields may be
    missing.  The embedding therefore starts with a small model of
    JavaScript values and of the handful of operators the source uses
    ([||], [!], [+ 1], [/] with [Math.ceil], property reads, object and
    array spread, [Object.keys], [Object.values]).  The composable itself is
    written in a state-and-exception monad over the reactive refs, the two
    slots of the Vuex store, and the router. *)

From Stdlib Require Import ZArith String List Bool Lia DecimalString.
From stdpp Require Import base option strings gmap.
Import ListNotations.

Local Open Scope string_scope.
Local Open Scope Z_scope.
Set Warnings "-register-all".

(** ** JavaScript values *)

Module JS.

(** Numbers are modelled on the integers (pages, totals and limits are
    counts) together with [NaN] and the two infinities, which arise from
    missing operands and from division.  Objects are association lists in
    property-creation order, which is the order [Object.keys] and the spread
    operator enumerate string keys in; a well-formed object has no
    duplicated key ([wf_obj]).  Keys that spell an array index, which
    JavaScript enumerates ahead of the others, are kept where they were
    created: the order among the remaining keys is the same either way.
    Inherited and built-in properties (methods, [length]) are not modelled:
    every property the source reads is an own data property. *)
Inductive value : Type :=
| VUndef
| VNull
| VBool (b : bool)
| VNum (n : Z)
| VNaN
| VInf (negative : bool)
| VStr (s : string)
| VArr (items : list value)
| VObj (props : list (string * value)).

Abbreviation obj := (list (string * value)).

(** [!!v] *)
Definition truthy (v : value) : bool :=
  match v with
  | VUndef | VNull | VNaN => false
  | VBool b => b
  | VNum n => negb (n =? 0)
  | VInf _ => true
  | VStr s => negb (String.eqb s "")
  | VArr _ | VObj _ => true
  end.

(** [a || b] *)
Definition or (a b : value) : value := if truthy a then a else b.

(** [a ?? b], used only to state what the specification writes. *)
Definition nullish (a b : value) : value :=
  match a with
  | VUndef | VNull => b
  | _ => a
  end.

(** [v !== true] is [negb (is_true v)]. *)
Definition is_true (v : value) : bool :=
  match v with
  | VBool true => true
  | _ => false
  end.

Definition is_object (v : value) : bool :=
  match v with
  | VObj _ => true
  | _ => false
  end.

(** *** Own properties *)

(** [o[k]] on the property list: the first binding of [k]. *)
Fixpoint get (k : string) (o : obj) : option value :=
  match o with
  | [] => None
  | (k', v) :: o' => if String.eqb k' k then Some v else get k o'
  end.

(** [o[k] = v]: an existing property keeps its position, a new one is
    appended. *)
Fixpoint set (k : string) (v : value) (o : obj) : obj :=
  match o with
  | [] => [(k, v)]
  | (k', v') :: o' =>
      if String.eqb k' k then (k', v) :: o' else (k', v') :: set k v o'
  end.

Definition keys (o : obj) : list string := map fst o.

Definition wf_obj (o : obj) : Prop := NoDup (keys o).

(** [Object.assign]-style copy of the entries [src] onto [dst], in order. *)
Definition assign (dst src : obj) : obj :=
  fold_left (fun acc kv => set (fst kv) (snd kv) acc) src dst.

Definition index_key (i : nat) : string :=
  NilEmpty.string_of_uint (Nat.to_uint i).

Fixpoint indexed (i : nat) (items : list value) : obj :=
  match items with
  | [] => []
  | v :: items' => (index_key i, v) :: indexed (S i) items'
  end.

Fixpoint chars (s : string) : list value :=
  match s with
  | EmptyString => []
  | String c s' => VStr (String c EmptyString) :: chars s'
  end.

(** The own enumerable string-keyed properties of a value, as the spread
    [{...v}] and [Object.values(v)] see them: the properties of an object,
    the indexed items of an array, the indexed characters of a string, and
    nothing for the other primitives (including [undefined] and [null]). *)
Definition ownEntries (v : value) : obj :=
  match v with
  | VObj o => o
  | VArr items => indexed 0 items
  | VStr s => indexed 0 (chars s)
  | _ => []
  end.

(** [{...a, ...b, ...}]: a fresh object receiving the own properties of
    each operand from left to right. *)
Definition spread (operands : list value) : obj :=
  fold_left (fun acc v => assign acc (ownEntries v)) operands [].

(** [v.k] (or [v[k]]) for a base that is neither [undefined] nor [null]:
    the own property, or [undefined] when there is none.  A read whose
    base can be nullish is a [member] access of the composable's monad. *)
Definition prop (k : string) (v : value) : value :=
  match get k (ownEntries v) with
  | Some x => x
  | None => VUndef
  end.

(** [v?.k] *)
Definition optProp (k : string) (v : value) : value := prop k v.

(** [Object.values(v)] for a non-nullish [v]. *)
Definition values (v : value) : value := VArr (map snd (ownEntries v)).

(** *** Arithmetic *)

Definition string_of_Z (n : Z) : string :=
  NilZero.string_of_int (Z.to_int n).

(** [String(v)]; an array joins its items with commas, printing
    [undefined] and [null] items as the empty string. *)
Fixpoint toString (v : value) : string :=
  match v with
  | VUndef => "undefined"
  | VNull => "null"
  | VBool true => "true"
  | VBool false => "false"
  | VNum n => string_of_Z n
  | VNaN => "NaN"
  | VInf false => "Infinity"
  | VInf true => "-Infinity"
  | VStr s => s
  | VArr items =>
      let item (x : value) : string :=
        match x with
        | VUndef | VNull => ""
        | _ => toString x
        end in
      (fix join (xs : list value) : string :=
         match xs with
         | [] => ""
         | [x] => item x
         | x :: xs' => String.append (item x) (String.append "," (join xs'))
         end) items
  | VObj _ => "[object Object]"
  end.

(** [v + 1]: string concatenation when [v] is (or converts to) a string,
    numeric addition otherwise. *)
Definition plusOne (v : value) : value :=
  match v with
  | VUndef => VNaN
  | VNull => VNum 1
  | VBool b => VNum (if b then 2 else 1)
  | VNum n => VNum (n + 1)
  | VNaN => VNaN
  | VInf s => VInf s
  | VStr s => VStr (String.append s "1")
  | VArr _ | VObj _ => VStr (String.append (toString v) "1")
  end.

(** The operand conversion of [/], on the values whose conversion is
    modelled; strings, arrays and objects (whose conversion parses text) are
    outside the modelled fragment. *)
Definition toNumber (v : value) : option value :=
  match v with
  | VUndef => Some VNaN
  | VNull => Some (VNum 0)
  | VBool b => Some (VNum (if b then 1 else 0))
  | VNum _ | VNaN | VInf _ => Some v
  | VStr _ | VArr _ | VObj _ => None
  end.

(** [Math.ceil(a / b)] on numbers.  The quotient of two integers is
    rounded up exactly; a zero divisor gives an infinity or [NaN]. *)
Definition ceilDivNum (a b : value) : value :=
  match a, b with
  | VNum x, VNum y =>
      if y =? 0 then
        if x =? 0 then VNaN else VInf (x <? 0)
      else VNum (- ((- x) / y))
  | VNum _, VInf _ => VNum 0
  | VInf s, VNum y => VInf (xorb s (y <? 0))
  | _, _ => VNaN
  end.

Definition ceilDiv (a b : value) : option value :=
  match toNumber a, toNumber b with
  | Some x, Some y => Some (ceilDivNum x y)
  | _, _ => None
  end.

End JS.

(** ** lodash's [merge] *)

Module Lodash.
Import JS.

(** Modelled from the spec: [merge] is imported from lodash (line 8 of the
    source) and its code is not part of the repository.  The specification
    describes it as a deep overwrite merge: each key present in the source
    overwrites the corresponding key of the destination, recursively where
    both hold an object, and keys absent from the source keep the
    destination's value.  [mergeValue objValue srcValue] is the value the
    destination holds for a key afterwards. *)
Fixpoint mergeValue (objValue srcValue : value) {struct srcValue} : value :=
  match srcValue, objValue with
  | VObj src, VObj object =>
      VObj (fold_left
              (fun acc kv =>
                 set (fst kv) (mergeValue (prop (fst kv) (VObj acc)) (snd kv)) acc)
              src object)
  | _, _ => srcValue
  end.

(** Modelled from the spec: one source of lodash's [merge] merged into the
    destination [object], key by key in the source's order. *)
Definition mergeObject (object src : obj) : obj :=
  fold_left
    (fun acc kv =>
       set (fst kv) (mergeValue (prop (fst kv) (VObj acc)) (snd kv)) acc)
    src object.

(** Modelled from the spec: lodash's [merge(object, ...sources)].  The
    sources are applied from left to right; the result is the new content
    of [object], the only argument written to.  A source that is not an
    object contributes nothing. *)
Definition merge (object : obj) (sources : list value) : obj :=
  fold_left
    (fun acc source =>
       match source with
       | VObj src => mergeObject acc src
       | _ => acc
       end)
    sources object.

End Lodash.

(** ** The composable *)

Module Listing.
Import JS.

(** What an awaited promise settles to. *)
Inductive settled : Type :=
| Resolved (v : value)
| Rejected (reason : value).

(** What can be thrown: the [TypeError] the runtime raises for a property
    read on [undefined]/[null] or for spreading a non-iterable into an
    array, and the rejection reason of an awaited promise. *)
Inductive exn : Type :=
| TypeError
| Reason (e : value).

Inductive result (A : Type) : Type :=
| Ok (a : A)
| Throw (e : exn).
Arguments Ok {A} a.
Arguments Throw {A} e.

(** The state the composable reads and writes: its two refs, the two
    listing slots of the Vuex store (keyed by listing key), the query of
    the router's current route, and a trace of the calls made to the two
    collaborators. *)
Record State : Type := mkState {
  loading : bool;
  loadingMore : bool;
  initialListings : gmap string value;
  appliedListings : gmap string value;
  currentQuery : obj;
  replaceCalls : list obj;
  searchCalls : list value
}.

Definition M (A : Type) : Type := State -> result A * State.

Definition ret {A} (a : A) : M A := fun s => (Ok a, s).

Definition bind {A B} (m : M A) (k : A -> M B) : M B :=
  fun s =>
    match m s with
    | (Ok a, s') => k a s'
    | (Throw e, s') => (Throw e, s')
    end.

Definition throw {A} (e : exn) : M A := fun s => (Throw e, s).

Definition getState : M State := fun s => (Ok s, s).

Definition modify (f : State -> State) : M unit := fun s => (Ok tt, f s).

Notation "x <- m ;; k" := (bind m (fun x => k))
  (at level 100, m at next level, right associativity).
Notation "m ;; k" := (bind m (fun _ => k))
  (at level 100, right associativity).

(** [try { body } catch (e) { handler } finally { finalizer }] *)
Definition tryCatchFinally {A} (body : M A) (handler : exn -> M A)
    (finalizer : M unit) : M A :=
  fun s =>
    let '(r, s1) :=
      match body s with
      | (Throw e, s') => handler e s'
      | done => done
      end in
    match finalizer s1 with
    | (Ok _, s2) => (r, s2)
    | (Throw e, s2) => (Throw e, s2)
    end.

(** [promise.catch(handler)] *)
Definition catch {A} (m : M A) (handler : exn -> M A) : M A :=
  fun s =>
    match m s with
    | (Throw e, s') => handler e s'
    | done => done
    end.

(** [v.k] where [v] may be [undefined] or [null]. *)
Definition member (k : string) (v : value) : M value :=
  match v with
  | VUndef | VNull => throw TypeError
  | _ => ret (prop k v)
  end.

(** [...v] inside an array literal. *)
Definition iterate (v : value) : M (list value) :=
  match v with
  | VArr items => ret items
  | VStr s => ret (chars s)
  | _ => throw TypeError
  end.

Definition setLoading (b : bool) : M unit :=
  modify (fun s => mkState b (loadingMore s) (initialListings s)
                     (appliedListings s) (currentQuery s) (replaceCalls s)
                     (searchCalls s)).

Definition setLoadingMore (b : bool) : M unit :=
  modify (fun s => mkState (loading s) b (initialListings s)
                     (appliedListings s) (currentQuery s) (replaceCalls s)
                     (searchCalls s)).

(** Modelled from the spec: the Vuex mutation [SET_INITIAL_LISTING] is
    defined in the store, outside the source; the specification describes
    the store as named slots with [set(listingKey, value)], one namespace
    for the initial and one for the applied listings. *)
Definition commitInitialListing (listingKey : string) (v : value) : M unit :=
  modify (fun s => mkState (loading s) (loadingMore s)
                     (<[listingKey := v]> (initialListings s))
                     (appliedListings s) (currentQuery s) (replaceCalls s)
                     (searchCalls s)).

(** Modelled from the spec: the Vuex mutation [SET_APPLIED_LISTING], the
    slot write of the applied namespace. *)
Definition commitAppliedListing (listingKey : string) (v : value) : M unit :=
  modify (fun s => mkState (loading s) (loadingMore s) (initialListings s)
                     (<[listingKey := v]> (appliedListings s))
                     (currentQuery s) (replaceCalls s) (searchCalls s)).

(** [slots[listingKey]] on a store getter. *)
Definition slot (slots : gmap string value) (listingKey : string) : value :=
  match slots !! listingKey with
  | Some v => v
  | None => VUndef
  end.

Section Composable.

(** The arguments of [createListingComposable], and the router the
    application context provides. *)
Variable searchMethod : value -> settled.
Variable searchDefaults : value.
Variable listingKey : string.

(** Modelled from the spec: the router is an external collaborator with
    [replaceQuery(mapping) -> Promise<void>].  [navigation q] is [None] when
    the navigation to query [q] is confirmed, and [Some e] when it fails or
    is cancelled with error [e]. *)
Variable navigation : obj -> option value.

(** The filter extraction helper of [@shopware-pwa/helpers]. *)
Variable getListingFilters : value -> value.

(** Modelled from the spec: [router.replace({ query })].  The call is
    recorded; a confirmed navigation makes [query] the query of the current
    route, a failed one rejects and leaves the route as it is. *)
Definition routerReplace (query : obj) : M unit :=
  fun s =>
    let calls := (replaceCalls s ++ [query])%list in
    match navigation query with
    | None =>
        (Ok tt, mkState (loading s) (loadingMore s) (initialListings s)
                  (appliedListings s) query calls (searchCalls s))
    | Some e =>
        (Throw (Reason e),
         mkState (loading s) (loadingMore s) (initialListings s)
           (appliedListings s) (currentQuery s) calls (searchCalls s))
    end.

(** [await searchMethod(searchCriteria)]: the call is recorded and the
    awaited promise either yields its result or throws its rejection
    reason.  No other action is interleaved while the call is pending. *)
Definition awaitSearch (searchCriteria : value) : M value :=
  fun s =>
    let s' := mkState (loading s) (loadingMore s) (initialListings s)
                (appliedListings s) (currentQuery s) (replaceCalls s)
                (searchCalls s ++ [searchCriteria])%list in
    match searchMethod searchCriteria with
    | Resolved v => (Ok v, s')
    | Rejected e => (Throw (Reason e), s')
    end.

Definition getInitialListing (s : State) : value :=
  or (slot (initialListings s) listingKey) (VObj []).

Definition appliedListing (s : State) : value :=
  slot (appliedListings s) listingKey.

Definition setAppliedListing (v : value) : M unit :=
  commitAppliedListing listingKey v.

Definition setInitialListing (initialListing : value) : M unit :=
  commitInitialListing listingKey initialListing ;;
  setAppliedListing VNull.

Definition getCurrentListing (s : State) : value :=
  or (appliedListing s) (getInitialListing s).

Definition getElements (s : State) : value :=
  or (prop "elements" (getCurrentListing s)) (VArr []).

Definition getTotal (s : State) : value :=
  or (prop "total" (getCurrentListing s)) (VNum 0).

Definition getLimit (s : State) : value :=
  or (or (prop "limit" (getCurrentListing s)) (optProp "limit" searchDefaults))
     (VNum 10).

(** [None] stands for operands whose numeric conversion is outside the
    modelled fragment (see [toNumber]). *)
Definition getTotalPagesCount (s : State) : option value :=
  ceilDiv (getTotal s) (getLimit s).

Definition getSortingOrders (s : State) : value :=
  let oldSortings := values (or (prop "sortings" (getCurrentListing s)) (VObj [])) in
  or (prop "availableSortings" (getCurrentListing s)) oldSortings.

Definition getCurrentSortingOrder (s : State) : value :=
  prop "sorting" (getCurrentListing s).

Definition getCurrentPage (s : State) : value :=
  or (prop "page" (getCurrentListing s)) (VNum 1).

Definition getAvailableFilters (s : State) : value :=
  getListingFilters (prop "aggregations" (getCurrentListing s)).

Definition initSearch (criteria : value) : M unit :=
  setLoading true ;;
  tryCatchFinally
    (let searchCriteria := VObj (Lodash.merge [] [searchDefaults; criteria]) in
     result <- awaitSearch searchCriteria ;;
     setInitialListing result)
    (fun e => throw e)
    (setLoading false).

Definition search (criteria : value) (options : value) : M unit :=
  setLoading true ;;
  let changeRoute := negb (is_true (optProp "preventRouteChange" options)) in
  tryCatchFinally
    ((if changeRoute
      then catch (routerReplace (spread [criteria])) (fun _ => ret tt)
      else ret tt) ;;
     let searchCriteria := VObj (Lodash.merge [] [searchDefaults; criteria]) in
     result <- awaitSearch searchCriteria ;;
     setAppliedListing result)
    (fun e => throw e)
    (setLoading false).

Definition loadMore : M unit :=
  setLoadingMore true ;;
  tryCatchFinally
    (s <- getState ;;
     let query :=
       set "p" (plusOne (getCurrentPage s)) (spread [VObj (currentQuery s)]) in
     let searchCriteria := VObj (Lodash.merge [] [searchDefaults; VObj query]) in
     result <- awaitSearch searchCriteria ;;
     s <- getState ;;
     let copy := spread [getCurrentListing s] in
     page <- member "page" result ;;
     olds <- iterate (or (prop "elements" (getCurrentListing s)) (VArr [])) ;;
     fetched <- member "elements" result ;;
     news <- iterate fetched ;;
     setAppliedListing
       (VObj (set "elements" (VArr (olds ++ news)%list) (set "page" page copy))))
    (fun e => throw e)
    (setLoadingMore false).

Definition changeCurrentSortingOrder (order : value) : M unit :=
  s <- getState ;;
  let query := set "order" order (spread [VObj (currentQuery s)]) in
  search (VObj query) VUndef.

Definition changeCurrentPage (pageNumber : value) : M unit :=
  s <- getState ;;
  let query :=
    set "p" (or pageNumber (VNum 1)) (spread [VObj (currentQuery s)]) in
  search (VObj query) VUndef.

(** The body of the [forEach] callback of [getCurrentFilters]: what visiting
    [objectKey] does to [currentFiltersResult]. *)
Definition visitFilter (currentFilters : obj) (currentFiltersResult : obj)
    (objectKey : string) : obj :=
  let v := prop objectKey (VObj currentFilters) in
  if negb (truthy v) then currentFiltersResult
  else if String.eqb objectKey "navigationId" then currentFiltersResult
  else if String.eqb objectKey "price" then
    let r1 :=
      if truthy (prop "min" v)
      then set "min-price" (prop "min" v) currentFiltersResult
      else currentFiltersResult in
    if truthy (prop "max" v)
    then set "max-price" (prop "max" v) r1
    else r1
  else if String.eqb objectKey "p" then currentFiltersResult
  else set objectKey v currentFiltersResult.

(** The merged filters [{...currentListing.currentFilters, ...query}]. *)
Definition mergedFilters (s : State) : obj :=
  spread [prop "currentFilters" (getCurrentListing s); VObj (currentQuery s)].

Definition getCurrentFilters (s : State) : obj :=
  let currentFilters := mergedFilters s in
  fold_left (visitFilter currentFilters) (keys currentFilters) [].

(** What visiting [objectKey] assigns to the result key [target], if
    anything: [visitFilter] read off key by key. *)
Definition written (currentFilters : obj) (objectKey target : string)
    : option value :=
  let v := prop objectKey (VObj currentFilters) in
  if negb (truthy v) then None
  else if String.eqb objectKey "navigationId" then None
  else if String.eqb objectKey "price" then
    if String.eqb target "max-price" && truthy (prop "max" v)
    then Some (prop "max" v)
    else if String.eqb target "min-price" && truthy (prop "min" v)
    then Some (prop "min" v)
    else None
  else if String.eqb objectKey "p" then None
  else if String.eqb objectKey target then Some v
  else None.

(** The last assignment to [target] made while visiting [objectKeys] in
    order. *)
Fixpoint lastWrite (currentFilters : obj) (target : string)
    (objectKeys : list string) : option value :=
  match objectKeys with
  | [] => None
  | objectKey :: rest =>
      match lastWrite currentFilters target rest with
      | Some v => Some v
      | None => written currentFilters objectKey target
      end
  end.

(** The three actions that await [searchMethod], the request each of them
    sends from a given state, the loading flag each of them owns, and the
    action run as a computation. *)
Inductive action : Type :=
| InitSearch (criteria : value)
| Search (criteria options : value)
| LoadMore.

Definition requestOf (a : action) (s : State) : value :=
  match a with
  | InitSearch criteria | Search criteria _ =>
      VObj (Lodash.merge [] [searchDefaults; criteria])
  | LoadMore =>
      VObj (Lodash.merge []
              [searchDefaults;
               VObj (set "p" (plusOne (getCurrentPage s))
                       (spread [VObj (currentQuery s)]))])
  end.

Definition flagOf (a : action) (s : State) : bool :=
  match a with
  | InitSearch _ | Search _ _ => loading s
  | LoadMore => loadingMore s
  end.

Definition run (a : action) : M unit :=
  match a with
  | InitSearch criteria => initSearch criteria
  | Search criteria options => search criteria options
  | LoadMore => loadMore
  end.

End Composable.

(** A field that is either missing or holds a non-negative integer. *)
Definition countOrAbsent (v : value) : bool :=
  match v with
  | VUndef => true
  | VNum n => 0 <=? n
  | _ => false
  end.

End Listing.

(** ** Sample data *)

Module Examples.
Import JS Listing.

Definition defaults : value := VObj [("limit", VNum 10)].

Definition firstPage : obj :=
  [("total", VNum 25);
   ("elements", VArr [VStr "a"; VStr "b"; VStr "c"]);
   ("page", VNum 1);
   ("limit", VNum 10)].

Definition secondPage : obj :=
  [("elements", VArr [VStr "d"; VStr "e"]); ("page", VNum 2)].

(** A result that lacks [elements]. *)
Definition bare : obj := [("page", VNum 2)].

Definition resolving (r : obj) : value -> settled :=
  fun _ => Resolved (VObj r).

Definition rejecting (e : value) : value -> settled :=
  fun _ => Rejected e.

Definition confirmed : obj -> option value := fun _ => None.

Definition cancelled : obj -> option value :=
  fun _ => Some (VStr "NavigationDuplicated").

Definition fresh : State := mkState false false ∅ ∅ [] [] [].

(** The listing ["category"] with [listing] applied and [query] as the
    query of the current route. *)
Definition browsing (listing : obj) (query : obj) : State :=
  mkState false false ∅ (<["category" := VObj listing]> ∅) query [] [].

Definition shoes : obj := [("query", VStr "shoes")].

(** A listing filtered by price, as the backend reports it. *)
Definition priced : obj :=
  [("currentFilters",
    VObj [("price", VObj [("min", VNum 5); ("max", VNum 20)])])].

Definition filtered : obj :=
  [("currentFilters",
    VObj [("price", VObj [("min", VNum 5); ("max", VNum 20)]);
          ("navigationId", VStr "n1");
          ("manufacturer", VStr "m1");
          ("rating", VNum 0)])].

Definition negativeLimit : obj := [("total", VNum 10); ("limit", VNum (-5))].

End Examples.

(** ** Invariants and further sample data *)

Module Invariants.
Import JS Listing.

(** What the result of [getCurrentFilters] is made of: truthy values under
    keys that are not among the three the callback drops. *)
Definition clean (o : obj) : Prop :=
  forall k v, In (k, v) o ->
    truthy v = true /\ k <> "navigationId" /\ k <> "price" /\ k <> "p".

(** A JavaScript number: an integer of the model, [NaN] or an infinity. *)
Definition isNumber (v : value) : bool :=
  match v with
  | VNum _ | VNaN | VInf _ => true
  | _ => false
  end.

(** A field that is either missing or holds a number. *)
Definition numberOrAbsent (v : value) : bool :=
  match v with
  | VUndef => true
  | _ => isNumber v
  end.

End Invariants.

Module Scenarios.
Import JS Listing.

Definition thirdPage : obj :=
  [("elements", VArr [VStr "f"]); ("page", VNum 3); ("total", VNum 99)].

(** A backend that serves the page the criteria ask for. *)
Definition pager (searchCriteria : value) : settled :=
  match prop "p" searchCriteria with
  | VNum 2 => Resolved (VObj Examples.secondPage)
  | VNum 3 => Resolved (VObj thirdPage)
  | _ => Rejected (VStr "404")
  end.

(** Two listings side by side in the store. *)
Definition twoListings : State :=
  mkState false false ∅
    (<["search" := VObj Examples.secondPage]>
       (<["category" := VObj Examples.firstPage]> ∅))
    [] [] [].

(** A listing whose limit arrived as text. *)
Definition textLimit : obj := [("total", VNum 10); ("limit", VStr "0")].

Definition quiet : value := VObj [("preventRouteChange", VBool true)].

Definition filteredState : State :=
  Examples.browsing Examples.filtered [("manufacturer", VStr "m2")].

End Scenarios.

(** ** Facts about objects *)

Module ObjFacts.
Import JS.

Lemma get_set_eq (k : string) (v : value) (o : obj) :
  get k (set k v o) = Some v.
Proof.
  induction o as [|[k' v'] o IH]; simpl.
  - now rewrite String.eqb_refl.
  - destruct (String.eqb_spec k' k) as [->|Hne]; simpl.
    + now rewrite String.eqb_refl.
    + destruct (String.eqb_spec k' k); [contradiction | exact IH].
Qed.

Lemma get_set_ne (k k' : string) (v : value) (o : obj) :
  k <> k' -> get k' (set k v o) = get k' o.
Proof.
  intros Hne. induction o as [|[k0 v0] o IH]; simpl.
  - destruct (String.eqb_spec k k'); [contradiction | reflexivity].
  - destruct (String.eqb_spec k0 k) as [->|Hk]; simpl.
    + destruct (String.eqb_spec k k'); [contradiction | reflexivity].
    + now rewrite IH.
Qed.

Lemma prop_object (k : string) (o : obj) :
  prop k (VObj o) = match get k o with Some x => x | None => VUndef end.
Proof. reflexivity. Qed.

Lemma prop_set_ne (k k' : string) (v : value) (o : obj) :
  k <> k' -> prop k' (VObj (set k v o)) = prop k' (VObj o).
Proof. intros Hne. now rewrite !prop_object, get_set_ne. Qed.

Lemma get_None_keys (k : string) (o : obj) :
  get k o = None <-> ~ In k (keys o).
Proof.
  induction o as [|[k' v'] o IH]; simpl.
  - tauto.
  - destruct (String.eqb_spec k' k) as [->|Hne].
    + split; [discriminate | intros H; exfalso; apply H; now left].
    + rewrite IH. split.
      * intros H [Heq|Hin]; [contradiction | now apply H].
      * intros H Hin. apply H. now right.
Qed.

Lemma set_fresh (k : string) (v : value) (o : obj) :
  get k o = None -> set k v o = (o ++ [(k, v)])%list.
Proof.
  induction o as [|[k' v'] o IH]; simpl; [reflexivity|].
  destruct (String.eqb_spec k' k); [discriminate|].
  intros H. now rewrite IH.
Qed.

Lemma keys_set_present (k : string) (v : value) (o : obj) :
  get k o <> None -> keys (set k v o) = keys o.
Proof.
  induction o as [|[k' v'] o IH]; simpl; [congruence|].
  destruct (String.eqb_spec k' k); simpl; [reflexivity|].
  intros H. now rewrite IH.
Qed.

Lemma wf_set (k : string) (v : value) (o : obj) :
  wf_obj o -> wf_obj (set k v o).
Proof.
  unfold wf_obj. intros Hwf.
  destruct (get k o) eqn:Hget.
  - rewrite keys_set_present; [exact Hwf | congruence].
  - rewrite set_fresh by exact Hget. unfold keys. rewrite map_app. simpl.
    apply get_None_keys in Hget.
    apply NoDup_app. split; [exact Hwf|]. split.
    + intros x Hx Hin. apply list_elem_of_In in Hx, Hin.
      destruct Hin as [<-|[]]. contradiction.
    + apply NoDup_singleton.
Qed.

Lemma wf_assign (dst src : obj) : wf_obj dst -> wf_obj (assign dst src).
Proof.
  unfold assign. revert dst.
  induction src as [|[k v] src IH]; simpl; intros dst Hwf; [exact Hwf|].
  apply IH. now apply wf_set.
Qed.

Lemma wf_nil : wf_obj [].
Proof. constructor. Qed.

Lemma wf_spread (operands : list value) : wf_obj (spread operands).
Proof.
  unfold spread. generalize wf_nil. generalize (@nil (string * value)).
  induction operands as [|v vs IH]; simpl; intros acc Hwf; [exact Hwf|].
  apply IH. now apply wf_assign.
Qed.

(** Copying a well-formed source: the source's binding wins, the
    destination keeps the keys the source does not have. *)
Lemma get_assign (k : string) (dst src : obj) :
  wf_obj src ->
  get k (assign dst src) =
    match get k src with
    | Some v => Some v
    | None => get k dst
    end.
Proof.
  unfold assign, wf_obj. revert dst.
  induction src as [|[k' v'] src IH]; simpl; intros dst Hwf; [reflexivity|].
  apply NoDup_cons in Hwf as [Hnin Hwf].
  rewrite IH by exact Hwf.
  destruct (String.eqb_spec k' k) as [->|Hne].
  - assert (get k src = None) as ->.
    { apply get_None_keys. intros Hin. apply Hnin. now apply list_elem_of_In. }
    apply get_set_eq.
  - destruct (get k src); [reflexivity|]. now apply get_set_ne.
Qed.

Lemma assign_disjoint (dst src : obj) :
  wf_obj src -> (forall k, In k (keys src) -> get k dst = None) ->
  assign dst src = (dst ++ src)%list.
Proof.
  unfold assign, wf_obj. revert dst.
  induction src as [|[k v] src IH]; simpl; intros dst Hwf Hdis.
  - now rewrite app_nil_r.
  - apply NoDup_cons in Hwf as [Hnin Hwf].
    rewrite set_fresh by (apply Hdis; now left).
    rewrite IH; [now rewrite <- app_assoc | exact Hwf |].
    intros k' Hin. apply get_None_keys. unfold keys. rewrite map_app. simpl.
    intros Hin'. apply in_app_or in Hin' as [Hd|[<-|[]]].
    + specialize (Hdis k' (or_intror Hin)). apply get_None_keys in Hdis.
      contradiction.
    + apply Hnin. now apply list_elem_of_In.
Qed.

(** Spreading a well-formed object into a fresh one copies it. *)
Lemma spread_object (o : obj) : wf_obj o -> spread [VObj o] = o.
Proof.
  intros Hwf. unfold spread. simpl.
  now rewrite assign_disjoint.
Qed.

Lemma get_spread2 (k : string) (a : value) (b : obj) :
  wf_obj (ownEntries a) -> wf_obj b ->
  get k (spread [a; VObj b]) =
    match get k b with
    | Some v => Some v
    | None => get k (ownEntries a)
    end.
Proof.
  intros Ha Hb. unfold spread. simpl.
  rewrite get_assign by exact Hb.
  destruct (get k b); [reflexivity|].
  rewrite get_assign by exact Ha. now destruct (get k (ownEntries a)).
Qed.

(** Well-formedness of a given object. *)
Ltac solve_wf :=
  unfold wf_obj, keys; simpl;
  apply (bool_decide_unpack _); vm_compute; exact I.

End ObjFacts.

(** ** Facts about [merge] *)

Module MergeFacts.
Import JS Lodash ObjFacts.

Lemma mergeValue_overwrite (objValue srcValue : value) :
  is_object objValue && is_object srcValue = false ->
  mergeValue objValue srcValue = srcValue.
Proof. destruct srcValue, objValue; simpl; congruence. Qed.

Lemma mergeObject_cons (object : obj) (k : string) (v : value) (src : obj) :
  mergeObject object ((k, v) :: src)
    = mergeObject (set k (mergeValue (prop k (VObj object)) v) object) src.
Proof. reflexivity. Qed.

(** One level of the merge: a key of the source holds the merge of the two
    values, any other key keeps the destination's value. *)
Lemma get_mergeObject (k : string) (object src : obj) :
  wf_obj src ->
  get k (mergeObject object src) =
    match get k src with
    | Some v => Some (mergeValue (prop k (VObj object)) v)
    | None => get k object
    end.
Proof.
  unfold wf_obj. revert object.
  induction src as [|[k' v'] src IH]; intros object Hwf; [reflexivity|].
  apply NoDup_cons in Hwf as [Hnin Hwf].
  rewrite mergeObject_cons, IH by exact Hwf. cbn [get].
  destruct (String.eqb_spec k' k) as [->|Hne].
  - assert (get k src = None) as ->.
    { apply get_None_keys. intros Hin. apply Hnin. now apply list_elem_of_In. }
    apply get_set_eq.
  - rewrite (prop_set_ne k' k) by exact Hne.
    now rewrite (get_set_ne k' k) by exact Hne.
Qed.

(** A key that the last source binds to a value that is not an object
    holds that value in the merged criteria. *)
Lemma get_merge_last (k : string) (v : value) (defaults : value) (src : obj) :
  wf_obj src -> get k src = Some v -> is_object v = false ->
  get k (merge [] [defaults; VObj src]) = Some v.
Proof.
  intros Hwf Hget Hv. unfold merge. simpl.
  rewrite get_mergeObject, Hget by exact Hwf.
  rewrite mergeValue_overwrite; [reflexivity|].
  rewrite Hv. apply andb_false_r.
Qed.

End MergeFacts.

(** ** The listing store and the derived views *)

Module ListingFacts.
Import JS Listing Invariants ObjFacts MergeFacts.

#[local] Arguments Lodash.merge : simpl never.
#[local] Arguments spread : simpl never.

Section Views.

Variable listingKey : string.

Lemma or_truthy (a b : value) : truthy b = true -> truthy (or a b) = true.
Proof. unfold or. destruct (truthy a) eqn:Ha; auto. Qed.

Lemma or_falsy (a b : value) : truthy a = false -> or a b = b.
Proof. unfold or. now intros ->. Qed.

(** The current listing is never [undefined] or [null], so the property
    reads of the derived views never throw. *)
Lemma getCurrentListing_truthy (s : State) :
  truthy (getCurrentListing listingKey s) = true.
Proof.
  unfold getCurrentListing, getInitialListing.
  apply or_truthy, or_truthy. reflexivity.
Qed.

Lemma slot_insert (slots : gmap string value) (k : string) (v : value) :
  slot (<[k := v]> slots) k = v.
Proof. unfold slot. now rewrite lookup_insert_eq. Qed.

End Views.

(** On a listing with no field at all, every derived view falls back to
    its default. *)
Lemma views_of_empty_listing (searchDefaults : value) (listingKey : string)
    (s : State) :
  getCurrentListing listingKey s = VObj [] ->
  getElements listingKey s = VArr [] /\
  getTotal listingKey s = VNum 0 /\
  getLimit searchDefaults listingKey s
    = or (optProp "limit" searchDefaults) (VNum 10) /\
  getCurrentPage listingKey s = VNum 1 /\
  getSortingOrders listingKey s = VArr [] /\
  getCurrentSortingOrder listingKey s = VUndef.
Proof.
  intros Hcur.
  unfold getElements, getTotal, getLimit, getCurrentPage, getSortingOrders,
    getCurrentSortingOrder.
  rewrite Hcur. repeat split.
Qed.

(** C5. After [setInitialListing(L)] the applied listing of this key is
    [null] and the current listing is [L]; in every state, an applied
    listing that is present is the current listing whatever the initial
    listing is, and without one the current listing is the initial
    listing. *)
Theorem setInitialListing_resets_to_baseline
    (listingKey : string) (L : obj) (s : State) :
  let s' := snd (setInitialListing listingKey (VObj L) s) in
  fst (setInitialListing listingKey (VObj L) s) = Ok tt /\
  appliedListing listingKey s' = VNull /\
  getCurrentListing listingKey s' = VObj L /\
  (forall (t : State) (A : obj),
      appliedListing listingKey t = VObj A ->
      getCurrentListing listingKey t = VObj A) /\
  (forall t : State,
      truthy (appliedListing listingKey t) = false ->
      getCurrentListing listingKey t = getInitialListing listingKey t).
Proof.
  cbn. repeat split.
  - unfold appliedListing. cbn. apply slot_insert.
  - unfold getCurrentListing, appliedListing, getInitialListing. cbn.
    now rewrite !slot_insert.
  - intros t A H. unfold getCurrentListing. now rewrite H.
  - intros t H. unfold getCurrentListing. now apply or_falsy.
Qed.

Lemma setInitialListing_resets_witness :
  getCurrentListing "category"
    (Examples.browsing Examples.secondPage []) = VObj Examples.secondPage /\
  getCurrentListing "category" Examples.fresh
    = getInitialListing "category" Examples.fresh.
Proof.
  destruct (setInitialListing_resets_to_baseline "category"
              Examples.firstPage Examples.fresh)
    as (_ & _ & _ & Happlied & Hinitial).
  split.
  - apply Happlied. reflexivity.
  - apply Hinitial. reflexivity.
Defined.

(** C2. A [search(C)] whose [searchMethod] call resolves returns normally,
    leaves the result as the current listing and [loading] false, and,
    unless [options.preventRouteChange] is [true], has asked the router to
    replace the query with [C] (which becomes the current query when the
    navigation is confirmed).  Nothing is assumed of the navigation: when
    it fails the search goes on all the same. *)
Theorem search_success
    (searchMethod : value -> settled) (searchDefaults : value)
    (listingKey : string) (navigation : obj -> option value)
    (C : obj) (options : value) (s : State) (r : obj) :
  wf_obj C ->
  searchMethod (VObj (Lodash.merge [] [searchDefaults; VObj C]))
    = Resolved (VObj r) ->
  let out :=
    search searchMethod searchDefaults listingKey navigation
      (VObj C) options s in
  fst out = Ok tt /\
  getCurrentListing listingKey (snd out) = VObj r /\
  loading (snd out) = false /\
  (is_true (optProp "preventRouteChange" options) = false ->
     replaceCalls (snd out) = (replaceCalls s ++ [C])%list /\
     (navigation C = None -> currentQuery (snd out) = C) /\
     (navigation C <> None -> currentQuery (snd out) = currentQuery s)) /\
  (is_true (optProp "preventRouteChange" options) = true ->
     replaceCalls (snd out) = replaceCalls s /\
     currentQuery (snd out) = currentQuery s).
Proof.
  intros Hwf Hres out. subst out.
  unfold search, tryCatchFinally, bind, catch, awaitSearch, routerReplace,
    setAppliedListing, commitAppliedListing, setLoading, modify, ret.
  rewrite (spread_object C Hwf).
  destruct (is_true (optProp "preventRouteChange" options)); cbn.
  - rewrite Hres. cbn.
    unfold getCurrentListing, appliedListing. cbn. rewrite slot_insert. cbn.
    repeat split; congruence.
  - destruct (navigation C) as [e|] eqn:Hnav; cbn; rewrite Hres; cbn;
      unfold getCurrentListing, appliedListing; cbn; rewrite slot_insert; cbn;
      repeat split; congruence.
Qed.

Lemma search_success_witness :
  let out :=
    search (Examples.resolving Examples.firstPage) Examples.defaults
      "category" Examples.cancelled (VObj Examples.shoes) VUndef
      Examples.fresh in
  fst out = Ok tt /\
  getCurrentListing "category" (snd out) = VObj Examples.firstPage /\
  loading (snd out) = false /\
  replaceCalls (snd out) = [Examples.shoes] /\
  currentQuery (snd out) = [].
Proof.
  destruct (search_success (Examples.resolving Examples.firstPage)
              Examples.defaults "category" Examples.cancelled
              Examples.shoes VUndef Examples.fresh Examples.firstPage)
    as (Hok & Hcur & Hload & Hroute & _).
  - solve_wf.
  - reflexivity.
  - destruct (Hroute eq_refl) as (Hcalls & _ & Hquery).
    split; [exact Hok|]. split; [exact Hcur|]. split; [exact Hload|].
    split; [exact Hcalls|]. apply Hquery. discriminate.
Defined.

(** C4. When [searchMethod] rejects during [initSearch], [search] or
    [loadMore], the action throws the very rejection reason, its loading
    flag is false afterwards, both listing slots of the store are as they
    were, and [searchMethod] was called exactly once (no retry). *)
Theorem rejection_propagates_and_releases_flag
    (searchMethod : value -> settled) (searchDefaults : value)
    (listingKey : string) (navigation : obj -> option value)
    (a : action) (s : State) (e : value) :
  searchMethod (requestOf searchDefaults listingKey a s) = Rejected e ->
  let out := run searchMethod searchDefaults listingKey navigation a s in
  fst out = Throw (Reason e) /\
  flagOf a (snd out) = false /\
  initialListings (snd out) = initialListings s /\
  appliedListings (snd out) = appliedListings s /\
  searchCalls (snd out)
    = (searchCalls s ++ [requestOf searchDefaults listingKey a s])%list.
Proof.
  intros Hrej out. subst out.
  destruct a as [criteria|criteria options|]; cbn in Hrej |- *.
  - unfold initSearch, tryCatchFinally, bind, awaitSearch, setLoading, modify,
      throw. cbn. rewrite Hrej. cbn. auto.
  - unfold search, tryCatchFinally, bind, catch, awaitSearch, routerReplace,
      setLoading, modify, throw, ret.
    destruct (is_true (optProp "preventRouteChange" options)); cbn.
    + rewrite Hrej. cbn. auto.
    + destruct (navigation (spread [criteria])); cbn; rewrite Hrej; cbn; auto.
  - unfold loadMore, tryCatchFinally, bind, awaitSearch, setLoadingMore,
      modify, throw, getState. cbn.
    change (getCurrentPage listingKey _) with (getCurrentPage listingKey s).
    rewrite Hrej. cbn. auto.
Qed.

Lemma rejection_propagates_witness :
  let out :=
    run (Examples.rejecting (VStr "503")) Examples.defaults "category"
      Examples.confirmed LoadMore
      (Examples.browsing Examples.firstPage []) in
  fst out = Throw (Reason (VStr "503")) /\
  loadingMore (snd out) = false /\
  getCurrentListing "category" (snd out) = VObj Examples.firstPage.
Proof.
  destruct (rejection_propagates_and_releases_flag
              (Examples.rejecting (VStr "503")) Examples.defaults "category"
              Examples.confirmed LoadMore
              (Examples.browsing Examples.firstPage []) (VStr "503"))
    as (Hthrow & Hflag & _ & Happlied & _).
  - reflexivity.
  - split; [exact Hthrow|]. split; [exact Hflag|].
    unfold getCurrentListing, appliedListing. now rewrite Happlied.
Defined.

(** What [search] asks of the router when no option is given. *)
Lemma search_replaceCalls
    (searchMethod : value -> settled) (searchDefaults : value)
    (listingKey : string) (navigation : obj -> option value)
    (criteria : value) (s : State) :
  replaceCalls
    (snd (search searchMethod searchDefaults listingKey navigation
            criteria VUndef s))
  = (replaceCalls s ++ [spread [criteria]])%list.
Proof.
  unfold search, tryCatchFinally, bind, catch, awaitSearch, routerReplace,
    setAppliedListing, commitAppliedListing, setLoading, modify, throw, ret.
  cbn.
  destruct (navigation (spread [criteria])); cbn;
    destruct (searchMethod _); reflexivity.
Qed.

(** C9 (as the code has it). [changeCurrentSortingOrder(order)] is
    [search] on the current query extended by [{order}], and
    [changeCurrentPage(pageNumber)] is [search] on the current query
    extended by [{p: pageNumber || 1}]: a falsy page number, [0] included,
    becomes page 1.  The router is asked for exactly that query. *)
Theorem change_actions_delegate_to_search
    (searchMethod : value -> settled) (searchDefaults : value)
    (listingKey : string) (navigation : obj -> option value)
    (order pageNumber : value) (s : State) :
  wf_obj (currentQuery s) ->
  let sorted :=
    changeCurrentSortingOrder searchMethod searchDefaults listingKey
      navigation order s in
  let paged :=
    changeCurrentPage searchMethod searchDefaults listingKey navigation
      pageNumber s in
  sorted
    = search searchMethod searchDefaults listingKey navigation
        (VObj (set "order" order (currentQuery s))) VUndef s /\
  paged
    = search searchMethod searchDefaults listingKey navigation
        (VObj (set "p" (or pageNumber (VNum 1)) (currentQuery s))) VUndef s /\
  replaceCalls (snd sorted)
    = (replaceCalls s ++ [set "order" order (currentQuery s)])%list /\
  replaceCalls (snd paged)
    = (replaceCalls s ++ [set "p" (or pageNumber (VNum 1)) (currentQuery s)])%list /\
  (truthy pageNumber = false -> or pageNumber (VNum 1) = VNum 1).
Proof.
  intros Hwf sorted paged. subst sorted paged.
  unfold changeCurrentSortingOrder, changeCurrentPage, bind, getState.
  rewrite (spread_object _ Hwf).
  split; [reflexivity|]. split; [reflexivity|].
  rewrite !search_replaceCalls.
  rewrite !spread_object by (apply wf_set, Hwf).
  split; [reflexivity|]. split; [reflexivity|].
  apply or_falsy.
Qed.

Lemma change_actions_delegate_witness :
  replaceCalls
    (snd (changeCurrentPage (Examples.resolving Examples.firstPage)
            Examples.defaults "category" Examples.confirmed (VNum 0)
            (Examples.browsing Examples.firstPage Examples.shoes)))
  = [[("query", VStr "shoes"); ("p", VNum 1)]].
Proof.
  destruct (change_actions_delegate_to_search
              (Examples.resolving Examples.firstPage) Examples.defaults
              "category" Examples.confirmed (VStr "name-asc") (VNum 0)
              (Examples.browsing Examples.firstPage Examples.shoes))
    as (_ & _ & _ & Hpaged & _).
  - solve_wf.
  - exact Hpaged.
Defined.

(** C9 as stated fails: with [pageNumber = 0] the specification's
    [pageNumber ?? 1] keeps page 0, while the code searches page 1. *)
Lemma changeCurrentPage_zero_is_not_nullish :
  changeCurrentPage (Examples.resolving Examples.firstPage)
      Examples.defaults "category" Examples.confirmed (VNum 0)
      Examples.fresh
  <> search (Examples.resolving Examples.firstPage) Examples.defaults
       "category" Examples.confirmed
       (VObj (set "p" (nullish (VNum 0) (VNum 1))
                (spread [VObj (currentQuery Examples.fresh)])))
       VUndef Examples.fresh.
Proof.
  intros H. apply (f_equal (fun out => searchCalls (snd out))) in H.
  vm_compute in H. discriminate H.
Qed.

Lemma plusOne_not_object (v : value) : is_object (plusOne v) = false.
Proof. now destruct v. Qed.

(** C1 (as the code has it). Every [loadMore()] calls [searchMethod] once,
    with the deep merge of the search defaults and the current navigation
    query extended by [p]; the page sent is the page of the current
    listing (1 when the listing has none) plus 1, whatever page the
    navigation query holds. *)
Theorem loadMore_requests_next_listing_page
    (searchMethod : value -> settled) (searchDefaults : value)
    (listingKey : string) (s : State) :
  let page := plusOne (getCurrentPage listingKey s) in
  let query := set "p" page (spread [VObj (currentQuery s)]) in
  let searchCriteria := Lodash.merge [] [searchDefaults; VObj query] in
  searchCalls (snd (loadMore searchMethod searchDefaults listingKey s))
    = (searchCalls s ++ [VObj searchCriteria])%list /\
  get "p" searchCriteria = Some page /\
  getCurrentPage listingKey s
    = or (prop "page" (getCurrentListing listingKey s)) (VNum 1).
Proof.
  intros page query searchCriteria. split; [|split]; [| |reflexivity].
  - unfold loadMore, tryCatchFinally, bind, awaitSearch, setLoadingMore,
      setAppliedListing, commitAppliedListing, modify, throw, getState. cbn.
    change (getCurrentPage listingKey _) with (getCurrentPage listingKey s).
    fold page. fold query. fold searchCriteria.
    destruct (searchMethod (VObj searchCriteria)) as [v|e]; cbn;
      [|reflexivity].
    match goal with
    | |- context [iterate (or ?a ?b)] => destruct (or a b)
    end; destruct v; cbn; try reflexivity;
    match goal with
    | |- context [iterate ?a] => destruct a
    end; reflexivity.
  - subst searchCriteria query. apply get_merge_last.
    + apply wf_set, wf_spread.
    + apply get_set_eq.
    + apply plusOne_not_object.
Qed.

(** C1 as stated fails: with page 2 listed and [p = 5] in the navigation
    query, the request does not carry the query's page plus 1. *)
Lemma loadMore_page_is_not_query_page :
  let s := Examples.browsing Examples.secondPage [("p", VNum 5)] in
  ~ exists searchCriteria,
      searchCalls (snd (loadMore (Examples.resolving Examples.bare)
                          Examples.defaults "category" s))
        = (searchCalls s ++ [searchCriteria])%list /\
      prop "p" searchCriteria = plusOne (prop "p" (VObj (currentQuery s))).
Proof.
  intros s (searchCriteria & Hcalls & Hp).
  vm_compute in Hcalls. injection Hcalls as <-.
  vm_compute in Hp. discriminate Hp.
Qed.

(** C3. A [loadMore()] whose [searchMethod] call resolves to a result with
    an [elements] array returns normally; the new current listing is the
    prior one with [elements] replaced by the prior elements followed by
    the fetched ones and [page] replaced by the result's page, every other
    field being as before. *)
Theorem loadMore_appends_page
    (searchMethod : value -> settled) (searchDefaults : value)
    (listingKey : string) (s : State) (cur result : obj)
    (olds news : list value) :
  getCurrentListing listingKey s = VObj cur ->
  wf_obj cur ->
  getElements listingKey s = VArr olds ->
  searchMethod (requestOf searchDefaults listingKey LoadMore s)
    = Resolved (VObj result) ->
  prop "elements" (VObj result) = VArr news ->
  let out := loadMore searchMethod searchDefaults listingKey s in
  let new := ownEntries (getCurrentListing listingKey (snd out)) in
  fst out = Ok tt /\
  loadingMore (snd out) = false /\
  getCurrentListing listingKey (snd out) = VObj new /\
  get "elements" new = Some (VArr (olds ++ news)%list) /\
  get "page" new = Some (prop "page" (VObj result)) /\
  (forall k, k <> "elements" -> k <> "page" -> get k new = get k cur).
Proof.
  intros Hcur Hwf Holds Hres Hnews out new. subst new out.
  unfold loadMore, tryCatchFinally, bind, awaitSearch, setLoadingMore,
    setAppliedListing, commitAppliedListing, modify, throw, getState.
  cbn in Hres |- *.
  change (getCurrentPage listingKey _) with (getCurrentPage listingKey s).
  rewrite Hres. cbn.
  unfold getElements in Holds.
  unfold getCurrentListing, appliedListing, getInitialListing in *. cbn.
  rewrite Holds. cbn in Hnews |- *. rewrite Hnews. cbn.
  rewrite slot_insert. cbn. rewrite Hcur, (spread_object cur Hwf).
  repeat split.
  - apply get_set_eq.
  - rewrite get_set_ne by discriminate. now rewrite get_set_eq.
  - intros k H1 H2. rewrite !get_set_ne by congruence. reflexivity.
Qed.

Lemma loadMore_appends_page_witness :
  let out :=
    loadMore (Examples.resolving Examples.secondPage) Examples.defaults
      "category" (Examples.browsing Examples.firstPage []) in
  let new := ownEntries (getCurrentListing "category" (snd out)) in
  fst out = Ok tt /\
  get "elements" new
    = Some (VArr [VStr "a"; VStr "b"; VStr "c"; VStr "d"; VStr "e"]) /\
  get "page" new = Some (VNum 2) /\
  get "total" new = Some (VNum 25).
Proof.
  destruct (loadMore_appends_page (Examples.resolving Examples.secondPage)
              Examples.defaults "category"
              (Examples.browsing Examples.firstPage [])
              Examples.firstPage Examples.secondPage
              [VStr "a"; VStr "b"; VStr "c"] [VStr "d"; VStr "e"])
    as (Hok & _ & _ & Helements & Hpage & Hrest).
  - reflexivity.
  - solve_wf.
  - reflexivity.
  - reflexivity.
  - reflexivity.
  - split; [exact Hok|]. split; [exact Helements|]. split; [exact Hpage|].
    rewrite Hrest by discriminate. reflexivity.
Defined.

(** C8 (where the code fails it). When the result [loadMore()] receives
    has no [elements] field, spreading it into the new array throws a
    [TypeError]; the applied listing stays as it was. *)
Theorem loadMore_throws_without_elements
    (searchMethod : value -> settled) (searchDefaults : value)
    (listingKey : string) (s : State) (r : obj) :
  searchMethod (requestOf searchDefaults listingKey LoadMore s)
    = Resolved (VObj r) ->
  get "elements" r = None ->
  let out := loadMore searchMethod searchDefaults listingKey s in
  fst out = Throw TypeError /\
  appliedListings (snd out) = appliedListings s.
Proof.
  intros Hres Hnone out. subst out.
  unfold loadMore, tryCatchFinally, bind, awaitSearch, setLoadingMore,
    setAppliedListing, commitAppliedListing, modify, throw, getState.
  cbn in Hres |- *.
  change (getCurrentPage listingKey _) with (getCurrentPage listingKey s).
  rewrite Hres. cbn. rewrite (prop_object "elements" r), Hnone.
  match goal with
  | |- context [iterate (or ?a ?b)] => destruct (or a b)
  end; cbn; auto.
Qed.

Lemma loadMore_throws_without_elements_witness :
  let out :=
    loadMore (Examples.resolving Examples.bare) Examples.defaults
      "category" (Examples.browsing Examples.firstPage []) in
  fst out = Throw TypeError /\
  getElements "category" (snd out) = VArr [VStr "a"; VStr "b"; VStr "c"].
Proof.
  destruct (loadMore_throws_without_elements
              (Examples.resolving Examples.bare) Examples.defaults
              "category" (Examples.browsing Examples.firstPage [])
              Examples.bare) as (Hthrow & Happlied).
  - reflexivity.
  - reflexivity.
  - split; [exact Hthrow|].
    unfold getElements, getCurrentListing, appliedListing.
    now rewrite Happlied.
Defined.

Lemma countOrAbsent_cases (v : value) :
  countOrAbsent v = true -> v = VUndef \/ exists n, v = VNum n /\ 0 <= n.
Proof.
  destruct v; simpl; try discriminate; [now left|].
  intros H. right. exists n. split; [reflexivity | lia].
Qed.

Lemma ceil_quotient (total limit : Z) :
  0 <= total -> 0 < limit ->
  let pages := - ((- total) / limit) in
  0 <= pages /\ (pages - 1) * limit < total <= pages * limit.
Proof.
  intros Ht Hl pages. subst pages.
  pose proof (Z.div_mod (- total) limit ltac:(lia)) as Hdm.
  pose proof (Z.mod_pos_bound (- total) limit Hl) as Hb.
  nia.
Qed.

Lemma limit_chain (a b : Z) :
  0 <= a -> 0 <= b ->
  exists l, or (or (VNum a) (VNum b)) (VNum 10) = VNum l /\ 0 < l.
Proof.
  intros Ha Hb. unfold or. simpl.
  destruct (Z.eqb_spec a 0) as [->|Hna]; simpl.
  - destruct (Z.eqb_spec b 0) as [->|Hnb]; simpl.
    + exists 10. split; [reflexivity | lia].
    + destruct (Z.eqb_spec b 0); [contradiction|]. exists b. simpl.
      split; [reflexivity | lia].
  - destruct (Z.eqb_spec a 0); [contradiction|]. exists a. simpl.
    split; [reflexivity | lia].
Qed.

Lemma numberOrAbsent_cases (v : value) :
  numberOrAbsent v = true ->
  v = VUndef \/ v = VNaN \/ (exists n, v = VNum n) \/ (exists b, v = VInf b).
Proof.
  destruct v; simpl; try discriminate; intros _; eauto.
Qed.

(** The fallback chain of [getLimit] over numbers: the value chosen is a
    number other than zero. *)
Lemma limit_chain_number (a b : value) :
  numberOrAbsent a = true -> numberOrAbsent b = true ->
  let limit := or (or a b) (VNum 10) in
  isNumber limit = true /\ limit <> VNum 0 /\ toNumber limit = Some limit.
Proof.
  intros Ha Hb limit. subst limit.
  apply numberOrAbsent_cases in Ha as [->|[->|[[n ->]|[sa ->]]]];
    apply numberOrAbsent_cases in Hb as [->|[->|[[m ->]|[sb ->]]]];
    unfold or; simpl;
    repeat match goal with
           | |- context [?x =? 0] =>
               destruct (Z.eqb_spec x 0) as [->|?]; simpl
           end;
    (split; [reflexivity|]); (split; [congruence | reflexivity]).
Qed.

(** C10 (as the code has it). [getLimit] is always truthy, and is the
    literal 10 when both the listing's limit and the default limit are
    falsy; when the two limits are each missing or a number, it is a
    truthy, hence nonzero, number, so that [getTotalPagesCount] never
    divides by zero; when the total and the two limits are each missing or
    a non-negative integer, the limit is a positive integer and
    [getTotalPagesCount] is the natural number [ceil(total / limit)]. *)
Theorem getLimit_positive_and_pages_natural
    (searchDefaults : value) (listingKey : string) (s : State) :
  let cur := getCurrentListing listingKey s in
  let limit := getLimit searchDefaults listingKey s in
  truthy limit = true /\
  (truthy (prop "limit" cur) = false ->
   truthy (optProp "limit" searchDefaults) = false ->
   limit = VNum 10) /\
  (numberOrAbsent (prop "limit" cur) = true ->
   numberOrAbsent (optProp "limit" searchDefaults) = true ->
   isNumber limit = true /\
   limit <> VNum 0 /\
   toNumber limit = Some limit /\
   forall total,
     toNumber (getTotal listingKey s) = Some total ->
     getTotalPagesCount searchDefaults listingKey s
       = Some (ceilDivNum total limit)) /\
  (countOrAbsent (prop "total" cur) = true ->
   countOrAbsent (prop "limit" cur) = true ->
   countOrAbsent (optProp "limit" searchDefaults) = true ->
   exists total divisor pages : Z,
     getTotal listingKey s = VNum total /\
     limit = VNum divisor /\
     0 < divisor /\
     getTotalPagesCount searchDefaults listingKey s = Some (VNum pages) /\
     0 <= pages /\
     (pages - 1) * divisor < total <= pages * divisor).
Proof.
  intros cur limit. subst limit.
  unfold getTotalPagesCount, getLimit, getTotal. fold cur.
  split; [|split; [|split]].
  - apply or_truthy. reflexivity.
  - intros H1 H2. now rewrite (or_falsy _ _ H1), (or_falsy _ _ H2).
  - intros Hl Hd.
    destruct (limit_chain_number _ _ Hl Hd) as (Hnum & Hnz & Hconv).
    cbv zeta in Hnum, Hnz, Hconv.
    split; [exact Hnum|]. split; [exact Hnz|]. split; [exact Hconv|].
    intros total Htotal. unfold ceilDiv. now rewrite Htotal, Hconv.
  - intros Ht Hl Hd.
    assert (exists total, or (prop "total" cur) (VNum 0) = VNum total
                          /\ 0 <= total) as (total & -> & Htotal).
    { apply countOrAbsent_cases in Ht as [->|(n & -> & Hn)].
      - exists 0. split; [reflexivity | lia].
      - unfold or. simpl. destruct (Z.eqb_spec n 0) as [->|]; simpl;
          [exists 0 | exists n]; split; (reflexivity || lia). }
    assert (exists divisor,
               or (or (prop "limit" cur) (optProp "limit" searchDefaults))
                 (VNum 10) = VNum divisor /\ 0 < divisor)
      as (divisor & -> & Hdivisor).
    { apply countOrAbsent_cases in Hl as [->|(a & -> & Ha)];
      apply countOrAbsent_cases in Hd as [->|(b & -> & Hb)].
      - exists 10. split; [reflexivity | lia].
      - destruct (limit_chain 0 b ltac:(lia) Hb) as (l & Hl & Hpos).
        exists l. split; [exact Hl | exact Hpos].
      - destruct (limit_chain a 0 Ha ltac:(lia)) as (l & Hl & Hpos).
        exists l. split; [|exact Hpos]. rewrite <- Hl. unfold or. simpl.
        now destruct (a =? 0).
      - now apply limit_chain. }
    exists total, divisor, (- ((- total) / divisor)).
    repeat split; try (apply ceil_quotient; assumption); try assumption.
    unfold ceilDiv, ceilDivNum. simpl.
    destruct (Z.eqb_spec divisor 0); [lia | reflexivity].
Qed.

Lemma getLimit_positive_witness :
  (getLimit Examples.defaults "category"
     (Examples.browsing Examples.negativeLimit []) <> VNum 0) /\
  exists total divisor pages : Z,
    getTotal "category" (Examples.browsing Examples.firstPage [])
      = VNum total /\
    getLimit Examples.defaults "category"
      (Examples.browsing Examples.firstPage []) = VNum divisor /\
    0 < divisor /\
    getTotalPagesCount Examples.defaults "category"
      (Examples.browsing Examples.firstPage []) = Some (VNum pages) /\
    0 <= pages /\
    (pages - 1) * divisor < total <= pages * divisor.
Proof.
  split.
  - destruct (getLimit_positive_and_pages_natural Examples.defaults
                "category" (Examples.browsing Examples.negativeLimit []))
      as (_ & _ & Hnumber & _).
    destruct Hnumber as (_ & Hnonzero & _); [reflexivity | reflexivity |].
    exact Hnonzero.
  - destruct (getLimit_positive_and_pages_natural Examples.defaults
                "category" (Examples.browsing Examples.firstPage []))
      as (_ & _ & _ & Hpages).
    apply Hpages; reflexivity.
Defined.

(** C10 as stated fails twice over.  With the integer limit [-5] and
    total 10 the page count is [-2], which is not a natural number; and
    with the limit ["0"], a non-empty string, [getLimit] is truthy without
    being a number. *)
Lemma limit_need_not_be_a_positive_number :
  (let s := Examples.browsing Examples.negativeLimit [] in
   prop "total" (getCurrentListing "category" s) = VNum 10 /\
   prop "limit" (getCurrentListing "category" s) = VNum (-5) /\
   ~ exists pages : Z,
       getTotalPagesCount Examples.defaults "category" s
         = Some (VNum pages) /\ 0 <= pages) /\
  (let s := Examples.browsing Scenarios.textLimit [] in
   getLimit Examples.defaults "category" s = VStr "0" /\
   truthy (getLimit Examples.defaults "category" s) = true /\
   isNumber (getLimit Examples.defaults "category" s) = false).
Proof.
  split.
  - intros s. split; [reflexivity|]. split; [reflexivity|].
    intros (pages & Hpages & Hnat).
    vm_compute in Hpages. injection Hpages as <-. lia.
  - intros s. split; [reflexivity|]. split; reflexivity.
Qed.

End ListingFacts.

(** ** The current filters *)

Module FilterFacts.
Import JS Listing ObjFacts.

Section Visit.

Variable currentFilters : obj.

Lemma get_visitFilter (acc : obj) (objectKey target : string) :
  get target (visitFilter currentFilters acc objectKey) =
    match written currentFilters objectKey target with
    | Some v => Some v
    | None => get target acc
    end.
Proof.
  unfold visitFilter, written.
  destruct (truthy (prop objectKey (VObj currentFilters))); simpl;
    [|reflexivity].
  destruct (String.eqb_spec objectKey "navigationId"); [reflexivity|].
  destruct (String.eqb_spec objectKey "price").
  - destruct (String.eqb_spec target "max-price") as [->|Hmax]; simpl.
    + destruct (truthy (prop "max" _)); simpl.
      * apply get_set_eq.
      * destruct (truthy (prop "min" _)); [|reflexivity].
        now rewrite get_set_ne by discriminate.
    + destruct (truthy (prop "max" _)); simpl.
      * rewrite get_set_ne by congruence.
        destruct (String.eqb_spec target "min-price") as [->|Hmin]; simpl.
        -- destruct (truthy (prop "min" _)); [apply get_set_eq | reflexivity].
        -- destruct (truthy (prop "min" _)); [|reflexivity].
           now rewrite get_set_ne by congruence.
      * destruct (String.eqb_spec target "min-price") as [->|Hmin]; simpl.
        -- destruct (truthy (prop "min" _)); [apply get_set_eq | reflexivity].
        -- destruct (truthy (prop "min" _)); [|reflexivity].
           now rewrite get_set_ne by congruence.
  - destruct (String.eqb_spec objectKey "p"); [reflexivity|].
    destruct (String.eqb_spec objectKey target) as [->|Hne].
    + apply get_set_eq.
    + now apply get_set_ne.
Qed.

Lemma get_fold_visitFilter (target : string) (objectKeys : list string) :
  forall acc,
    get target (fold_left (visitFilter currentFilters) objectKeys acc) =
      match lastWrite currentFilters target objectKeys with
      | Some v => Some v
      | None => get target acc
      end.
Proof.
  induction objectKeys as [|objectKey rest IH]; intros acc; [reflexivity|].
  simpl. rewrite IH, get_visitFilter.
  now destruct (lastWrite currentFilters target rest).
Qed.

Lemma lastWrite_none (target : string) (objectKeys : list string) :
  (forall k, In k objectKeys -> written currentFilters k target = None) ->
  lastWrite currentFilters target objectKeys = None.
Proof.
  induction objectKeys as [|k rest IH]; intros H; [reflexivity|].
  simpl. rewrite IH by (intros; apply H; now right).
  apply H. now left.
Qed.

Lemma lastWrite_app (target : string) (l1 l2 : list string) :
  lastWrite currentFilters target (l1 ++ l2) =
    match lastWrite currentFilters target l2 with
    | Some v => Some v
    | None => lastWrite currentFilters target l1
    end.
Proof.
  induction l1 as [|k l1 IH]; simpl.
  - now destruct (lastWrite currentFilters target l2).
  - rewrite IH. now destruct (lastWrite currentFilters target l2).
Qed.

(** When every visited key other than [b] leaves [target] alone, the
    result holds what visiting [b] writes. *)
Lemma lastWrite_only (target b : string) (objectKeys : list string) :
  NoDup objectKeys ->
  (forall k, In k objectKeys -> k <> b ->
             written currentFilters k target = None) ->
  (~ In b objectKeys -> written currentFilters b target = None) ->
  lastWrite currentFilters target objectKeys
    = written currentFilters b target.
Proof.
  rewrite NoDup_ListNoDup.
  induction objectKeys as [|k rest IH]; intros Hnd Hothers Habsent.
  - simpl. symmetry. apply Habsent. intros [].
  - apply List.NoDup_cons_iff in Hnd as [Hnin Hnd]. simpl.
    destruct (string_dec k b) as [->|Hne].
    + rewrite lastWrite_none; [reflexivity|].
      intros k Hin. apply Hothers; [now right|]. intros ->. contradiction.
    + rewrite IH.
      * rewrite (Hothers k (or_introl eq_refl) Hne).
        now destruct (written currentFilters b target).
      * exact Hnd.
      * intros k' Hin. apply Hothers. now right.
      * intros Hb. apply Habsent. intros [->|Hin]; contradiction.
Qed.

(** When only [a] and [b] can write [target] and [b] is visited after
    [a], a write of [b] is the one that stays. *)
Lemma lastWrite_later (target a b : string) (l1 l2 l3 : list string)
    (v : value) :
  NoDup (l1 ++ a :: l2 ++ b :: l3) ->
  (forall k, k <> a -> k <> b -> written currentFilters k target = None) ->
  written currentFilters b target = Some v ->
  lastWrite currentFilters target (l1 ++ a :: l2 ++ b :: l3) = Some v.
Proof.
  rewrite NoDup_ListNoDup. intros Hnd Hothers Hb.
  assert (lastWrite currentFilters target (b :: l3) = Some v) as Htail.
  { simpl. rewrite lastWrite_none; [exact Hb|].
    intros k Hin. apply Hothers.
    - intros ->. apply List.NoDup_remove_2 in Hnd. apply Hnd.
      apply in_or_app. right. apply in_or_app. right. now right.
    - intros ->.
      replace (l1 ++ a :: l2 ++ b :: l3)%list
        with ((l1 ++ a :: l2) ++ b :: l3)%list in Hnd
        by (now rewrite <- app_assoc).
      apply List.NoDup_remove_2 in Hnd. apply Hnd.
      apply in_or_app. now right. }
  replace (l1 ++ a :: l2 ++ b :: l3)%list
    with ((l1 ++ a :: l2) ++ b :: l3)%list
    by (now rewrite <- app_assoc).
  now rewrite lastWrite_app, Htail.
Qed.

Lemma written_absent (k target : string) :
  ~ In k (keys currentFilters) -> written currentFilters k target = None.
Proof.
  intros Hnin. apply get_None_keys in Hnin.
  unfold written. now rewrite prop_object, Hnin.
Qed.

Lemma written_foreign (k target : string) :
  k <> target -> k <> "price" -> written currentFilters k target = None.
Proof.
  intros Hne Hprice. unfold written.
  destruct (truthy (prop k (VObj currentFilters))); [simpl|reflexivity].
  destruct (String.eqb k "navigationId"); [reflexivity|].
  destruct (String.eqb_spec k "price"); [contradiction|].
  destruct (String.eqb k "p"); [reflexivity|].
  now destruct (String.eqb_spec k target).
Qed.

Lemma written_price_other (target : string) :
  target <> "min-price" -> target <> "max-price" ->
  written currentFilters "price" target = None.
Proof.
  intros Hmin Hmax. unfold written.
  destruct (truthy (prop "price" (VObj currentFilters))); [simpl|reflexivity].
  destruct (String.eqb_spec target "max-price"); [contradiction|].
  now destruct (String.eqb_spec target "min-price").
Qed.

Lemma written_price_flat (flat part : string) :
  (flat = "min-price" /\ part = "min") \/
  (flat = "max-price" /\ part = "max") ->
  written currentFilters "price" flat =
    let price := prop "price" (VObj currentFilters) in
    if truthy price && truthy (prop part price)
    then Some (prop part price)
    else None.
Proof.
  intros [[-> ->]|[-> ->]]; unfold written;
    destruct (truthy (prop "price" (VObj currentFilters))); simpl;
    reflexivity.
Qed.

Lemma written_own (k : string) :
  k <> "navigationId" -> k <> "price" -> k <> "p" ->
  written currentFilters k k =
    if truthy (prop k (VObj currentFilters))
    then Some (prop k (VObj currentFilters))
    else None.
Proof.
  intros H1 H2 H3. unfold written.
  destruct (truthy (prop k (VObj currentFilters))); [simpl|reflexivity].
  destruct (String.eqb_spec k "navigationId"); [contradiction|].
  destruct (String.eqb_spec k "price"); [contradiction|].
  destruct (String.eqb_spec k "p"); [contradiction|].
  now rewrite String.eqb_refl.
Qed.

End Visit.

Section CurrentFilters.

Variable listingKey : string.
Variable s : State.

Lemma get_getCurrentFilters (target : string) :
  get target (getCurrentFilters listingKey s)
    = lastWrite (mergedFilters listingKey s) target
        (keys (mergedFilters listingKey s)).
Proof.
  unfold getCurrentFilters. rewrite get_fold_visitFilter.
  now destruct (lastWrite _ _ _).
Qed.

Lemma wf_mergedFilters : wf_obj (mergedFilters listingKey s).
Proof. apply wf_spread. Qed.

(** A result key other than the two flat price keys is written only when
    the key itself is visited. *)
Lemma get_getCurrentFilters_plain (target : string) :
  target <> "min-price" -> target <> "max-price" ->
  get target (getCurrentFilters listingKey s)
    = written (mergedFilters listingKey s) target target.
Proof.
  intros Hmin Hmax. rewrite get_getCurrentFilters.
  apply lastWrite_only.
  - apply wf_mergedFilters.
  - intros k _ Hne.
    destruct (string_dec k "price") as [->|Hprice].
    + now apply written_price_other.
    + now apply written_foreign.
  - apply written_absent.
Qed.

(** Without a write from the other of the two writers of a flat price
    key, the result holds what the remaining one writes. *)
Lemma get_getCurrentFilters_flat (flat a b : string) :
  flat = "min-price" \/ flat = "max-price" ->
  (a = "price" /\ b = flat) \/ (a = flat /\ b = "price") ->
  written (mergedFilters listingKey s) a flat = None ->
  get flat (getCurrentFilters listingKey s)
    = written (mergedFilters listingKey s) b flat.
Proof.
  intros Hflat Hab Ha. rewrite get_getCurrentFilters.
  apply lastWrite_only.
  - apply wf_mergedFilters.
  - intros k _ Hne.
    destruct (string_dec k a) as [->|Hna]; [exact Ha|].
    destruct Hab as [[-> ->]|[-> ->]]; now apply written_foreign.
  - apply written_absent.
Qed.

End CurrentFilters.

(** C7 (as the code has it). [getCurrentFilters] never contains
    ["navigationId"], ["p"] or ["price"]; a key whose merged value is falsy
    is omitted and any other key is passed through unchanged, for every
    key but the two flat price keys; ["min-price"] (["max-price"]) holds
    the truthy [min] ([max]) of a truthy [price] when the merged filters
    have no truthy key of that name, the merged value of that name when
    [price] contributes nothing, and, when both are there, whichever of
    the two keys is enumerated later; the values of the navigation query
    override those of the listing's [currentFilters]. *)
Theorem getCurrentFilters_keys
    (listingKey : string) (s : State) :
  let listingFilters :=
    prop "currentFilters" (getCurrentListing listingKey s) in
  let currentFilters := VObj (mergedFilters listingKey s) in
  let price := prop "price" currentFilters in
  let result := getCurrentFilters listingKey s in
  (get "navigationId" result = None /\ get "p" result = None /\
   get "price" result = None) /\
  (forall k,
      k <> "min-price" -> k <> "max-price" ->
      truthy (prop k currentFilters) = false -> get k result = None) /\
  (forall k,
      k <> "navigationId" -> k <> "p" -> k <> "price" ->
      k <> "min-price" -> k <> "max-price" ->
      truthy (prop k currentFilters) = true ->
      get k result = Some (prop k currentFilters)) /\
  (forall flat part,
      (flat = "min-price" /\ part = "min") \/
      (flat = "max-price" /\ part = "max") ->
      let fromPrice := truthy price && truthy (prop part price) in
      let literal := truthy (prop flat currentFilters) in
      (fromPrice = false -> literal = false -> get flat result = None) /\
      (fromPrice = false -> literal = true ->
       get flat result = Some (prop flat currentFilters)) /\
      (fromPrice = true -> literal = false ->
       get flat result = Some (prop part price)) /\
      (fromPrice = true -> literal = true ->
       (forall l1 l2 l3,
           keys (mergedFilters listingKey s)
             = (l1 ++ "price" :: l2 ++ flat :: l3)%list ->
           get flat result = Some (prop flat currentFilters)) /\
       (forall l1 l2 l3,
           keys (mergedFilters listingKey s)
             = (l1 ++ flat :: l2 ++ "price" :: l3)%list ->
           get flat result = Some (prop part price)))) /\
  (wf_obj (ownEntries listingFilters) -> wf_obj (currentQuery s) ->
   forall k,
     prop k currentFilters =
       match get k (currentQuery s) with
       | Some v => v
       | None => prop k listingFilters
       end).
Proof.
  intros listingFilters currentFilters price result.
  subst currentFilters price result.
  split; [|split; [|split; [|split]]].
  - rewrite !get_getCurrentFilters_plain by discriminate.
    unfold written.
    repeat split;
      now destruct (truthy (prop _ (VObj (mergedFilters listingKey s)))).
  - intros k Hmin Hmax Hfalsy.
    rewrite get_getCurrentFilters_plain by assumption.
    unfold written. now rewrite Hfalsy.
  - intros k H1 H2 H3 Hmin Hmax Htruthy.
    rewrite get_getCurrentFilters_plain by assumption.
    rewrite written_own by assumption. now rewrite Htruthy.
  - intros flat part Hflat fromPrice literal. subst fromPrice literal.
    assert (flat = "min-price" \/ flat = "max-price") as Hflat'
      by (destruct Hflat as [[-> _]|[-> _]]; auto).
    assert (flat <> "navigationId" /\ flat <> "price" /\ flat <> "p")
      as (Hf1 & Hf2 & Hf3)
      by (destruct Hflat' as [->| ->]; repeat split; discriminate).
    pose proof (written_price_flat (mergedFilters listingKey s) flat part
                  Hflat) as Hprice.
    pose proof (written_own (mergedFilters listingKey s) flat Hf1 Hf2 Hf3)
      as Hown.
    cbv zeta in Hprice.
    split; [|split; [|split; [|intros Hp Hl; split]]].
    + intros Hp Hl. rewrite Hp in Hprice. rewrite Hl in Hown.
      rewrite (get_getCurrentFilters_flat listingKey s flat "price" flat);
        auto.
    + intros Hp Hl. rewrite Hp in Hprice. rewrite Hl in Hown.
      rewrite (get_getCurrentFilters_flat listingKey s flat "price" flat);
        auto.
    + intros Hp Hl. rewrite Hp in Hprice. rewrite Hl in Hown.
      rewrite (get_getCurrentFilters_flat listingKey s flat flat "price");
        auto.
    + intros l1 l2 l3 Hkeys. rewrite Hl in Hown.
      rewrite get_getCurrentFilters, Hkeys.
      apply lastWrite_later; [| |exact Hown].
      * rewrite <- Hkeys. apply wf_mergedFilters.
      * intros k Hk1 Hk2. now apply written_foreign.
    + intros l1 l2 l3 Hkeys. rewrite Hp in Hprice.
      rewrite get_getCurrentFilters, Hkeys.
      apply lastWrite_later; [| |exact Hprice].
      * rewrite <- Hkeys. apply wf_mergedFilters.
      * intros k Hk1 Hk2. now apply written_foreign.
  - intros Hlf Hq k. rewrite prop_object. unfold mergedFilters.
    fold listingFilters.
    rewrite get_spread2 by assumption.
    now destruct (get k (currentQuery s)).
Qed.

Lemma getCurrentFilters_keys_witness :
  let s :=
    Examples.browsing Examples.filtered
      [("p", VNum 2); ("manufacturer", VStr "m2")] in
  let result := getCurrentFilters "category" s in
  get "min-price" result = Some (VNum 5) /\
  get "max-price" result = Some (VNum 20) /\
  get "manufacturer" result = Some (VStr "m2") /\
  get "rating" result = None.
Proof.
  intros s result. subst result.
  destruct (getCurrentFilters_keys "category" s)
    as (_ & Hfalsy & Hpass & Hflat & Hquery).
  destruct (Hflat "min-price" "min" (or_introl (conj eq_refl eq_refl)))
    as (_ & _ & Hmin & _).
  destruct (Hflat "max-price" "max" (or_intror (conj eq_refl eq_refl)))
    as (_ & _ & Hmax & _).
  split; [|split; [|split]].
  - apply Hmin; reflexivity.
  - apply Hmax; reflexivity.
  - rewrite (Hpass "manufacturer") by (discriminate || reflexivity).
    rewrite Hquery by solve_wf. reflexivity.
  - apply Hfalsy; (discriminate || reflexivity).
Defined.

(** C7 as stated fails: with a [price] object in the listing's filters
    and a literal ["min-price"] in the navigation query, the translation
    of [price.min] and the unchanged passing of the key ["min-price"]
    cannot both hold; the code keeps the literal, which it visits later. *)
Lemma flat_price_keys_clash :
  let s := Examples.browsing Examples.priced [("min-price", VStr "10")] in
  let currentFilters := VObj (mergedFilters "category" s) in
  let price := prop "price" currentFilters in
  let result := getCurrentFilters "category" s in
  result = [("min-price", VStr "10"); ("max-price", VNum 20)] /\
  ~ ((truthy price = true -> truthy (prop "min" price) = true ->
      get "min-price" result = Some (prop "min" price)) /\
     (forall k,
         k <> "navigationId" -> k <> "p" -> k <> "price" ->
         truthy (prop k currentFilters) = true ->
         get k result = Some (prop k currentFilters))).
Proof.
  intros s currentFilters price result. split; [reflexivity|].
  intros [Htranslate Hpass].
  specialize (Htranslate eq_refl eq_refl).
  specialize (Hpass "min-price").
  rewrite Hpass in Htranslate by (discriminate || reflexivity).
  vm_compute in Htranslate. discriminate Htranslate.
Qed.

End FilterFacts.

(** ** The actions in every outcome *)

Module ActionFacts.
Import JS Listing ObjFacts ListingFacts.

#[local] Arguments Lodash.merge : simpl never.
#[local] Arguments spread : simpl never.
#[local] Arguments prop : simpl never.
#[local] Arguments plusOne : simpl never.

(** Unfolds an action and splits on everything its outcome depends on:
    what [searchMethod] settles to, what the router answers, and the shape
    of the values read from the result. *)
Ltac run_cases :=
  unfold run, initSearch, search, loadMore, tryCatchFinally, bind, catch,
    awaitSearch, routerReplace, setInitialListing, setAppliedListing,
    commitInitialListing, commitAppliedListing, setLoading, setLoadingMore,
    modify, throw, ret, getState, member, iterate;
  cbn;
  repeat match goal with
         | |- context [match ?x with _ => _ end] =>
             lazymatch x with
             | context [match _ with _ => _ end] => fail
             | _ => destruct x eqn:?; cbn
             end
         end.

Section Outcomes.

Variable searchMethod : value -> settled.
Variable searchDefaults : value.
Variable listingKey : string.
Variable navigation : obj -> option value.

(** X1. Each action calls [searchMethod] exactly once, with the criteria it
    builds on entry, whether the call resolves or rejects and whether the
    action goes on to succeed or to throw. *)
Theorem run_calls_searchMethod_once (a : action) (s : State) :
  searchCalls (snd (run searchMethod searchDefaults listingKey navigation a s))
    = (searchCalls s ++ [requestOf searchDefaults listingKey a s])%list.
Proof.
  destruct a as [criteria|criteria options|]; run_cases; reflexivity.
Qed.

(** X2. In every outcome the action's own loading flag is released and the
    other flag is left as it was. *)
Theorem run_releases_flag (a : action) (s : State) :
  let s' := snd (run searchMethod searchDefaults listingKey navigation a s) in
  flagOf a s' = false /\
  match a with
  | LoadMore => loading s' = loading s
  | _ => loadingMore s' = loadingMore s
  end.
Proof.
  destruct a as [criteria|criteria options|]; run_cases; split; reflexivity.
Qed.

(** X3. The listings stored under any other listing key are never touched. *)
Theorem run_keeps_other_listings (a : action) (s : State) (other : string) :
  other <> listingKey ->
  let s' := snd (run searchMethod searchDefaults listingKey navigation a s) in
  initialListings s' !! other = initialListings s !! other /\
  appliedListings s' !! other = appliedListings s !! other /\
  getCurrentListing other s' = getCurrentListing other s.
Proof.
  intros Hne s'.
  assert (initialListings s' !! other = initialListings s !! other /\
          appliedListings s' !! other = appliedListings s !! other)
    as [Hinit Happlied].
  { subst s'. destruct a as [criteria|criteria options|]; run_cases;
      rewrite ?lookup_insert_ne by congruence; split; reflexivity. }
  split; [exact Hinit|]. split; [exact Happlied|].
  unfold getCurrentListing, appliedListing, getInitialListing, slot.
  now rewrite Hinit, Happlied.
Qed.

(** X4. An action that throws leaves both slots of the store exactly as they
    were.  [initSearch] and [search] throw nothing but the rejection reason
    of [searchMethod]; only [loadMore] can also throw a [TypeError]. *)
Theorem run_failure_is_atomic (a : action) (s : State) (e : exn) :
  fst (run searchMethod searchDefaults listingKey navigation a s) = Throw e ->
  let s' := snd (run searchMethod searchDefaults listingKey navigation a s) in
  initialListings s' = initialListings s /\
  appliedListings s' = appliedListings s /\
  ((exists reason,
       e = Reason reason /\
       searchMethod (requestOf searchDefaults listingKey a s)
         = Rejected reason) \/
   (a = LoadMore /\ e = TypeError)).
Proof.
  destruct a as [criteria|criteria options|]; run_cases; intros Hthrow;
    try discriminate Hthrow; injection Hthrow as <-;
    (split; [reflexivity|]); (split; [reflexivity|]);
    solve [ right; split; reflexivity
          | left; eexists; split; reflexivity
          | left; eexists; split; [reflexivity | eassumption] ].
Qed.

(** X5. [search] and [loadMore] never write the initial listing: the baseline
    set by [setInitialListing] or [initSearch] survives them in every
    outcome. *)
Theorem baseline_survives_search_and_loadMore
    (criteria options : value) (s : State) :
  initialListings
    (snd (search searchMethod searchDefaults listingKey navigation
            criteria options s)) = initialListings s /\
  initialListings (snd (loadMore searchMethod searchDefaults listingKey s))
    = initialListings s.
Proof. split; run_cases; reflexivity. Qed.

(** X6. [initSearch] and [loadMore] never call the router, and neither does a
    [search] with [preventRouteChange] set to [true]: the replace calls
    and the query of the current route are as before, in every outcome. *)
Theorem router_left_alone (a : action) (s : State) :
  match a with
  | Search _ options => is_true (optProp "preventRouteChange" options) = true
  | _ => True
  end ->
  let s' := snd (run searchMethod searchDefaults listingKey navigation a s) in
  replaceCalls s' = replaceCalls s /\ currentQuery s' = currentQuery s.
Proof.
  destruct a as [criteria|criteria options|]; intros Hprevent;
    unfold run, search; try rewrite Hprevent; run_cases;
    split; reflexivity.
Qed.

(** X7. Any other [search] asks the router exactly once, for a copy of the
    criteria, whatever [searchMethod] settles to: the route is replaced
    (when the navigation is confirmed) even when the search rejects. *)
Theorem search_replaces_route_in_every_outcome
    (criteria options : value) (s : State) :
  is_true (optProp "preventRouteChange" options) = false ->
  let s' :=
    snd (search searchMethod searchDefaults listingKey navigation
           criteria options s) in
  replaceCalls s' = (replaceCalls s ++ [spread [criteria]])%list /\
  currentQuery s' =
    match navigation (spread [criteria]) with
    | None => spread [criteria]
    | Some _ => currentQuery s
    end.
Proof.
  intros Hprevent. unfold search. rewrite Hprevent. run_cases;
    split; reflexivity.
Qed.

(** X8. An [initSearch] whose [searchMethod] call resolves stores the result
    as the initial listing and clears the applied one, so the result is the
    current listing whatever was applied before. *)
Theorem initSearch_success (criteria : value) (s : State) (r : obj) :
  searchMethod (requestOf searchDefaults listingKey (InitSearch criteria) s)
    = Resolved (VObj r) ->
  let out := initSearch searchMethod searchDefaults listingKey criteria s in
  fst out = Ok tt /\
  getInitialListing listingKey (snd out) = VObj r /\
  appliedListing listingKey (snd out) = VNull /\
  getCurrentListing listingKey (snd out) = VObj r /\
  loading (snd out) = false.
Proof.
  intros Hres. cbn in Hres.
  unfold initSearch, tryCatchFinally, bind, awaitSearch, setInitialListing,
    setAppliedListing, commitInitialListing, commitAppliedListing,
    setLoading, modify, throw.
  cbn. rewrite Hres. cbn.
  unfold getCurrentListing, appliedListing, getInitialListing. cbn.
  rewrite !slot_insert. repeat split.
Qed.

End Outcomes.

Lemma run_keeps_other_listings_witness :
  getCurrentListing "search"
    (snd (run (Examples.resolving Scenarios.thirdPage) Examples.defaults
            "category" Examples.confirmed LoadMore Scenarios.twoListings))
  = VObj Examples.secondPage.
Proof.
  rewrite (proj2 (proj2 (run_keeps_other_listings
                           (Examples.resolving Scenarios.thirdPage)
                           Examples.defaults "category" Examples.confirmed
                           LoadMore Scenarios.twoListings "search"
                           ltac:(discriminate)))).
  reflexivity.
Defined.

Lemma run_failure_is_atomic_witness :
  let s := Examples.browsing Examples.firstPage [] in
  appliedListings
    (snd (run (Examples.resolving Examples.bare) Examples.defaults
            "category" Examples.confirmed LoadMore s))
  = appliedListings s.
Proof.
  intros s.
  destruct (run_failure_is_atomic (Examples.resolving Examples.bare)
              Examples.defaults "category" Examples.confirmed LoadMore s
              TypeError) as (_ & Happlied & _).
  - reflexivity.
  - exact Happlied.
Defined.

Lemma router_left_alone_witness :
  let s := Examples.browsing Examples.firstPage Examples.shoes in
  let s' :=
    snd (run (Examples.resolving Examples.secondPage) Examples.defaults
           "category" Examples.confirmed
           (Search (VObj [("order", VStr "name-asc")]) Scenarios.quiet) s) in
  replaceCalls s' = [] /\ currentQuery s' = Examples.shoes.
Proof.
  intros s.
  apply (router_left_alone (Examples.resolving Examples.secondPage)
           Examples.defaults "category" Examples.confirmed
           (Search (VObj [("order", VStr "name-asc")]) Scenarios.quiet) s).
  reflexivity.
Defined.

Lemma search_replaces_route_witness :
  let s := Examples.browsing Examples.firstPage Examples.shoes in
  let s' :=
    snd (search (Examples.rejecting (VStr "503")) Examples.defaults
           "category" Examples.confirmed
           (VObj [("order", VStr "name-asc")]) VUndef s) in
  replaceCalls s' = [[("order", VStr "name-asc")]] /\
  currentQuery s' = [("order", VStr "name-asc")].
Proof.
  intros s.
  apply (search_replaces_route_in_every_outcome
           (Examples.rejecting (VStr "503")) Examples.defaults "category"
           Examples.confirmed (VObj [("order", VStr "name-asc")]) VUndef s).
  reflexivity.
Defined.

Lemma initSearch_success_witness :
  let out :=
    initSearch (Examples.resolving Examples.firstPage) Examples.defaults
      "category" (VObj Examples.shoes)
      (Examples.browsing Examples.secondPage []) in
  fst out = Ok tt /\
  getInitialListing "category" (snd out) = VObj Examples.firstPage /\
  appliedListing "category" (snd out) = VNull /\
  getCurrentListing "category" (snd out) = VObj Examples.firstPage /\
  loading (snd out) = false.
Proof.
  apply (initSearch_success (Examples.resolving Examples.firstPage)
           Examples.defaults "category" (VObj Examples.shoes)
           (Examples.browsing Examples.secondPage []) Examples.firstPage).
  reflexivity.
Defined.

(** The state a successful [loadMore] ends in. *)
Lemma loadMore_success_state
    (searchMethod : value -> settled) (searchDefaults : value)
    (listingKey : string) (s : State) (cur result : obj)
    (olds news : list value) :
  getCurrentListing listingKey s = VObj cur ->
  wf_obj cur ->
  getElements listingKey s = VArr olds ->
  searchMethod (requestOf searchDefaults listingKey LoadMore s)
    = Resolved (VObj result) ->
  prop "elements" (VObj result) = VArr news ->
  loadMore searchMethod searchDefaults listingKey s =
    (Ok tt,
     mkState (loading s) false (initialListings s)
       (<[listingKey :=
            VObj (set "elements" (VArr (olds ++ news)%list)
                    (set "page" (prop "page" (VObj result)) cur))]>
          (appliedListings s))
       (currentQuery s) (replaceCalls s)
       (searchCalls s ++ [requestOf searchDefaults listingKey LoadMore s])%list).
Proof.
  intros Hcur Hwf Holds Hres Hnews.
  unfold loadMore, tryCatchFinally, bind, awaitSearch, setLoadingMore,
    setAppliedListing, commitAppliedListing, modify, throw, getState, member.
  cbn in Hres |- *.
  change (getCurrentPage listingKey _) with (getCurrentPage listingKey s).
  rewrite Hres. cbn.
  unfold getElements in Holds.
  unfold getCurrentListing, appliedListing, getInitialListing in *. cbn.
  rewrite Holds, Hnews. cbn.
  now rewrite Hcur, (spread_object cur Hwf).
Qed.

Lemma getCurrentListing_applied (listingKey : string) (s : State) (o : obj) :
  appliedListings s !! listingKey = Some (VObj o) ->
  getCurrentListing listingKey s = VObj o.
Proof.
  intros H. unfold getCurrentListing, appliedListing, slot. now rewrite H.
Qed.

Lemma prop_after_loadMore (k : string) (elements page : value) (cur : obj) :
  k <> "elements" -> k <> "page" ->
  prop k (VObj (set "elements" elements (set "page" page cur)))
    = prop k (VObj cur).
Proof.
  intros H1 H2. now rewrite !prop_set_ne by congruence.
Qed.

(** X9. A successful [loadMore] changes nothing but the elements and the
    page: the total, the limit, the page count, the sortings, the
    available filters and the current filters are those of the listing
    before, whatever the fetched result says about them. *)
Theorem loadMore_keeps_the_other_views
    (searchMethod : value -> settled) (searchDefaults : value)
    (listingKey : string) (getListingFilters : value -> value)
    (s : State) (cur result : obj) (olds news : list value) :
  getCurrentListing listingKey s = VObj cur ->
  wf_obj cur ->
  getElements listingKey s = VArr olds ->
  searchMethod (requestOf searchDefaults listingKey LoadMore s)
    = Resolved (VObj result) ->
  prop "elements" (VObj result) = VArr news ->
  let s' := snd (loadMore searchMethod searchDefaults listingKey s) in
  getTotal listingKey s' = getTotal listingKey s /\
  getLimit searchDefaults listingKey s' = getLimit searchDefaults listingKey s /\
  getTotalPagesCount searchDefaults listingKey s'
    = getTotalPagesCount searchDefaults listingKey s /\
  getSortingOrders listingKey s' = getSortingOrders listingKey s /\
  getCurrentSortingOrder listingKey s' = getCurrentSortingOrder listingKey s /\
  getAvailableFilters listingKey getListingFilters s'
    = getAvailableFilters listingKey getListingFilters s /\
  getCurrentFilters listingKey s' = getCurrentFilters listingKey s.
Proof.
  intros Hcur Hwf Holds Hres Hnews s'. subst s'.
  rewrite (loadMore_success_state _ _ _ _ _ _ _ _ Hcur Hwf Holds Hres Hnews).
  cbn [snd].
  match goal with
  | |- context [getTotal listingKey ?t] =>
      assert (getCurrentListing listingKey t
              = VObj (set "elements" (VArr (olds ++ news)%list)
                        (set "page" (prop "page" (VObj result)) cur)))
        as Hnew by (apply getCurrentListing_applied; cbn;
                    apply lookup_insert_eq)
  end.
  unfold getTotalPagesCount, getTotal, getLimit, getSortingOrders,
    getCurrentSortingOrder, getAvailableFilters, getCurrentFilters,
    mergedFilters.
  rewrite Hnew, Hcur. cbn [currentQuery].
  rewrite !prop_after_loadMore by discriminate.
  repeat split.
Qed.

(** X10. After a successful [loadMore] the elements are the old ones followed
    by the fetched ones and the current page is the page the result
    reports, or 1 when it reports none; the next [loadMore] asks for the
    page after that one, with the same navigation query. *)
Theorem loadMore_advances_the_page
    (searchMethod : value -> settled) (searchDefaults : value)
    (listingKey : string) (s : State) (cur result : obj)
    (olds news : list value) :
  getCurrentListing listingKey s = VObj cur ->
  wf_obj cur ->
  getElements listingKey s = VArr olds ->
  searchMethod (requestOf searchDefaults listingKey LoadMore s)
    = Resolved (VObj result) ->
  prop "elements" (VObj result) = VArr news ->
  let s' := snd (loadMore searchMethod searchDefaults listingKey s) in
  let page := or (prop "page" (VObj result)) (VNum 1) in
  getElements listingKey s' = VArr (olds ++ news)%list /\
  getCurrentPage listingKey s' = page /\
  requestOf searchDefaults listingKey LoadMore s'
    = VObj (Lodash.merge []
              [searchDefaults;
               VObj (set "p" (plusOne page)
                       (spread [VObj (currentQuery s)]))]).
Proof.
  intros Hcur Hwf Holds Hres Hnews s' page. subst s' page.
  rewrite (loadMore_success_state _ _ _ _ _ _ _ _ Hcur Hwf Holds Hres Hnews).
  cbn [snd].
  match goal with
  | |- context [getElements listingKey ?t] => set (s1 := t)
  end.
  assert (getCurrentListing listingKey s1
          = VObj (set "elements" (VArr (olds ++ news)%list)
                    (set "page" (prop "page" (VObj result)) cur)))
    as Hnew by (apply getCurrentListing_applied; cbn; apply lookup_insert_eq).
  assert (currentQuery s1 = currentQuery s) as Hquery by reflexivity.
  unfold requestOf, getElements, getCurrentPage. rewrite Hnew, Hquery.
  rewrite (prop_object "elements"), get_set_eq.
  rewrite (prop_set_ne "elements" "page") by discriminate.
  rewrite (prop_object "page" (set _ _ _)), get_set_eq.
  repeat split.
Qed.

(** X11. Two [loadMore]s in a row accumulate: the elements are the original
    ones followed by both fetched pages in order, and the total is still
    that of the listing the first one started from. *)
Theorem loadMore_twice_accumulates
    (searchMethod : value -> settled) (searchDefaults : value)
    (listingKey : string) (s : State) (cur first second : obj)
    (olds news1 news2 : list value) :
  getCurrentListing listingKey s = VObj cur ->
  wf_obj cur ->
  getElements listingKey s = VArr olds ->
  searchMethod (requestOf searchDefaults listingKey LoadMore s)
    = Resolved (VObj first) ->
  prop "elements" (VObj first) = VArr news1 ->
  let s1 := snd (loadMore searchMethod searchDefaults listingKey s) in
  searchMethod (requestOf searchDefaults listingKey LoadMore s1)
    = Resolved (VObj second) ->
  prop "elements" (VObj second) = VArr news2 ->
  let out := loadMore searchMethod searchDefaults listingKey s1 in
  fst out = Ok tt /\
  getElements listingKey (snd out) = VArr (olds ++ news1 ++ news2)%list /\
  getCurrentPage listingKey (snd out)
    = or (prop "page" (VObj second)) (VNum 1) /\
  getTotal listingKey (snd out) = getTotal listingKey s.
Proof.
  intros Hcur Hwf Holds Hres1 Hnews1 s1 Hres2 Hnews2 out.
  pose proof (loadMore_success_state _ _ _ _ _ _ _ _
                Hcur Hwf Holds Hres1 Hnews1) as Hfirst.
  assert (getCurrentListing listingKey s1
          = VObj (set "elements" (VArr (olds ++ news1)%list)
                    (set "page" (prop "page" (VObj first)) cur))) as Hcur1.
  { subst s1. rewrite Hfirst. apply getCurrentListing_applied. cbn.
    apply lookup_insert_eq. }
  assert (getElements listingKey s1 = VArr (olds ++ news1)%list) as Holds1.
  { unfold getElements. rewrite Hcur1.
    now rewrite (prop_object "elements"), get_set_eq. }
  pose proof (loadMore_success_state searchMethod searchDefaults listingKey
                s1 _ second _ news2 Hcur1 (wf_set _ _ _ (wf_set _ _ _ Hwf))
                Holds1 Hres2 Hnews2) as Hsecond.
  subst out. rewrite Hsecond. cbn [fst snd].
  match goal with
  | |- context [getElements listingKey ?t] =>
      assert (getCurrentListing listingKey t
              = VObj (set "elements" (VArr ((olds ++ news1) ++ news2)%list)
                        (set "page" (prop "page" (VObj second))
                           (set "elements" (VArr (olds ++ news1)%list)
                              (set "page" (prop "page" (VObj first)) cur)))))
        as Hnew by (apply getCurrentListing_applied; cbn;
                    apply lookup_insert_eq)
  end.
  unfold getElements, getCurrentPage, getTotal. rewrite Hnew, Hcur.
  rewrite (prop_object "elements"), get_set_eq.
  rewrite (prop_set_ne "elements" "page") by discriminate.
  rewrite (prop_object "page" (set _ _ _)), get_set_eq.
  rewrite !prop_after_loadMore by discriminate.
  rewrite <- app_assoc. repeat split.
Qed.

Lemma loadMore_keeps_the_other_views_witness :
  let s := Examples.browsing Examples.firstPage [] in
  let s' :=
    snd (loadMore (Examples.resolving Scenarios.thirdPage)
           Examples.defaults "category" s) in
  getTotal "category" s' = VNum 25 /\
  getTotalPagesCount Examples.defaults "category" s' = Some (VNum 3).
Proof.
  intros s.
  destruct (loadMore_keeps_the_other_views
              (Examples.resolving Scenarios.thirdPage) Examples.defaults
              "category" (fun aggregations => aggregations) s
              Examples.firstPage Scenarios.thirdPage
              [VStr "a"; VStr "b"; VStr "c"] [VStr "f"])
    as (Htotal & _ & Hpages & _).
  - reflexivity.
  - solve_wf.
  - reflexivity.
  - reflexivity.
  - reflexivity.
  - split; [rewrite Htotal | rewrite Hpages]; reflexivity.
Defined.

Lemma loadMore_advances_the_page_witness :
  let s := Examples.browsing Examples.firstPage [] in
  let s' :=
    snd (loadMore (Examples.resolving Examples.secondPage)
           Examples.defaults "category" s) in
  getElements "category" s'
    = VArr [VStr "a"; VStr "b"; VStr "c"; VStr "d"; VStr "e"] /\
  getCurrentPage "category" s' = VNum 2.
Proof.
  intros s.
  destruct (loadMore_advances_the_page
              (Examples.resolving Examples.secondPage) Examples.defaults
              "category" s Examples.firstPage Examples.secondPage
              [VStr "a"; VStr "b"; VStr "c"] [VStr "d"; VStr "e"])
    as (Helements & Hpage & _).
  - reflexivity.
  - solve_wf.
  - reflexivity.
  - reflexivity.
  - reflexivity.
  - split; [exact Helements | exact Hpage].
Defined.

Lemma loadMore_twice_accumulates_witness :
  let s := Examples.browsing Examples.firstPage [] in
  let s1 := snd (loadMore Scenarios.pager Examples.defaults "category" s) in
  let out := loadMore Scenarios.pager Examples.defaults "category" s1 in
  fst out = Ok tt /\
  getElements "category" (snd out)
    = VArr [VStr "a"; VStr "b"; VStr "c"; VStr "d"; VStr "e"; VStr "f"] /\
  getCurrentPage "category" (snd out) = VNum 3 /\
  getTotal "category" (snd out) = VNum 25.
Proof.
  intros s.
  apply (loadMore_twice_accumulates Scenarios.pager Examples.defaults
           "category" s Examples.firstPage Examples.secondPage
           Scenarios.thirdPage
           [VStr "a"; VStr "b"; VStr "c"] [VStr "d"; VStr "e"] [VStr "f"]).
  - reflexivity.
  - solve_wf.
  - reflexivity.
  - reflexivity.
  - reflexivity.
  - reflexivity.
  - reflexivity.
Defined.

End ActionFacts.

(** ** Invariants of the current filters *)

Module FilterInvariants.
Import JS Listing Invariants ObjFacts FilterFacts.

#[local] Arguments prop : simpl never.

Lemma In_set (k k' : string) (v v' : value) (o : obj) :
  In (k', v') (set k v o) -> (k' = k /\ v' = v) \/ In (k', v') o.
Proof.
  induction o as [|[k0 v0] o IH]; simpl.
  - intros [[= <- <-]|[]]. now left.
  - destruct (String.eqb_spec k0 k) as [->|Hne]; simpl.
    + intros [[= <- <-]|Hin]; [now left | right; now right].
    + intros [Heq|Hin]; [right; now left|].
      destruct (IH Hin) as [?|?]; [now left | right; now right].
Qed.

Lemma get_In (k : string) (v : value) (o : obj) :
  get k o = Some v -> In (k, v) o.
Proof.
  induction o as [|[k0 v0] o IH]; simpl; [discriminate|].
  destruct (String.eqb_spec k0 k) as [->|Hne].
  - intros [= ->]. now left.
  - intros H. right. now apply IH.
Qed.

Lemma get_app (k : string) (a b : obj) :
  get k (a ++ b)%list =
    match get k a with
    | Some v => Some v
    | None => get k b
    end.
Proof.
  induction a as [|[k0 v0] a IH]; simpl; [reflexivity|].
  now destruct (String.eqb k0 k).
Qed.

Lemma clean_set (k : string) (v : value) (o : obj) :
  truthy v = true -> k <> "navigationId" -> k <> "price" -> k <> "p" ->
  clean o -> clean (set k v o).
Proof.
  intros Hv H1 H2 H3 Ho k' v' Hin.
  apply In_set in Hin as [[-> ->]|Hin]; [easy | now apply Ho].
Qed.

Lemma clean_visitFilter (currentFilters acc : obj) (objectKey : string) :
  clean acc -> clean (visitFilter currentFilters acc objectKey).
Proof.
  intros Hacc. unfold visitFilter.
  destruct (truthy (prop objectKey (VObj currentFilters))) eqn:Hv; simpl;
    [|exact Hacc].
  destruct (String.eqb_spec objectKey "navigationId"); [exact Hacc|].
  destruct (String.eqb_spec objectKey "price").
  - destruct (truthy (prop "min" _)) eqn:Hmin;
      destruct (truthy (prop "max" _)) eqn:Hmax;
      repeat (apply clean_set; try easy); exact Hacc.
  - destruct (String.eqb_spec objectKey "p"); [exact Hacc|].
    now apply clean_set.
Qed.

Lemma wf_visitFilter (currentFilters acc : obj) (objectKey : string) :
  wf_obj acc -> wf_obj (visitFilter currentFilters acc objectKey).
Proof.
  intros Hacc. unfold visitFilter.
  repeat match goal with
         | |- context [if ?b then _ else _] => destruct b
         end; repeat apply wf_set; exact Hacc.
Qed.

Lemma fold_visitFilter_invariant (currentFilters : obj)
    (objectKeys : list string) :
  forall acc,
    wf_obj acc -> clean acc ->
    wf_obj (fold_left (visitFilter currentFilters) objectKeys acc) /\
    clean (fold_left (visitFilter currentFilters) objectKeys acc).
Proof.
  induction objectKeys as [|k rest IH]; intros acc Hwf Hclean; [easy|].
  simpl. apply IH; [now apply wf_visitFilter | now apply clean_visitFilter].
Qed.

Lemma getCurrentFilters_invariant (listingKey : string) (s : State) :
  wf_obj (getCurrentFilters listingKey s) /\
  clean (getCurrentFilters listingKey s).
Proof.
  unfold getCurrentFilters. apply fold_visitFilter_invariant.
  - apply wf_nil.
  - intros k v [].
Qed.

(** Visiting the keys of a clean object in order rebuilds it. *)
Lemma visitFilter_rebuilds (r : obj) :
  wf_obj r ->
  forall suf pre,
    r = (pre ++ suf)%list -> clean suf ->
    fold_left (visitFilter r) (keys suf) pre = r.
Proof.
  intros Hwf. induction suf as [|[k v] suf IH]; intros pre Hr Hclean.
  - simpl. now rewrite Hr, app_nil_r.
  - simpl.
    destruct (Hclean k v (or_introl eq_refl)) as (Hv & H1 & H2 & H3).
    assert (get k pre = None) as Hfresh.
    { apply get_None_keys. intros Hin.
      unfold wf_obj, keys in Hwf. rewrite Hr, map_app in Hwf.
      apply NoDup_app in Hwf as (_ & Hdisj & _).
      apply (Hdisj k); [now apply list_elem_of_In|].
      simpl. apply list_elem_of_here. }
    assert (prop k (VObj r) = v) as Hprop.
    { rewrite prop_object, Hr, get_app, Hfresh. simpl.
      now rewrite String.eqb_refl. }
    assert (visitFilter r pre k = (pre ++ [(k, v)])%list) as ->.
    { unfold visitFilter. rewrite Hprop, Hv. simpl.
      destruct (String.eqb_spec k "navigationId"); [contradiction|].
      destruct (String.eqb_spec k "price"); [contradiction|].
      destruct (String.eqb_spec k "p"); [contradiction|].
      now apply set_fresh. }
    apply IH.
    + now rewrite <- app_assoc.
    + intros k' v' Hin. apply Hclean. now right.
Qed.

(** X12. Every value in the current filters is truthy: no entry is ever
    [undefined], [null], [false], [0], [NaN] or the empty string. *)
Theorem getCurrentFilters_values_are_truthy
    (listingKey : string) (s : State) (k : string) (v : value) :
  get k (getCurrentFilters listingKey s) = Some v -> truthy v = true.
Proof.
  intros Hget. apply get_In in Hget.
  now apply (proj2 (getCurrentFilters_invariant listingKey s)) in Hget.
Qed.

(** X13. The current filters are stable under a round trip through the
    navigation query: when they are made the query of the route and the
    listing brings no filters of its own, [getCurrentFilters] gives them
    back unchanged, in the same order. *)
Theorem getCurrentFilters_round_trip
    (listingKey : string) (s t : State) :
  currentQuery t = getCurrentFilters listingKey s ->
  ownEntries (prop "currentFilters" (getCurrentListing listingKey t)) = [] ->
  getCurrentFilters listingKey t = getCurrentFilters listingKey s.
Proof.
  intros Hquery Hnone.
  destruct (getCurrentFilters_invariant listingKey s) as [Hwf Hclean].
  assert (mergedFilters listingKey t = getCurrentFilters listingKey s)
    as Hmerged.
  { unfold mergedFilters, spread. simpl. rewrite Hnone, Hquery. simpl.
    now rewrite assign_disjoint. }
  unfold getCurrentFilters at 1. rewrite Hmerged.
  now apply (visitFilter_rebuilds _ Hwf _ []).
Qed.

Lemma set_set_same (k : string) (v w : value) (o : obj) :
  set k v (set k w o) = set k v o.
Proof.
  induction o as [|[k0 v0] o IH]; simpl.
  - now rewrite String.eqb_refl.
  - destruct (String.eqb_spec k0 k) as [->|Hne]; simpl.
    + now rewrite String.eqb_refl.
    + destruct (String.eqb_spec k0 k); [contradiction|]. now rewrite IH.
Qed.

(** Replacing the value of a key that is there commutes with writing any
    other key. *)
Lemma set_present_commutes (d k : string) (v w : value) (o : obj) :
  d <> k -> get d o <> None ->
  set d v (set k w o) = set k w (set d v o).
Proof.
  intros Hne. induction o as [|[k0 v0] o IH]; simpl; [congruence|].
  destruct (String.eqb_spec k0 d) as [->|Hd]; intros Hget.
  - destruct (String.eqb_spec d k); [contradiction|]. simpl.
    rewrite String.eqb_refl.
    destruct (String.eqb_spec d k); [contradiction | reflexivity].
  - destruct (String.eqb_spec k0 k) as [->|Hk]; simpl.
    + destruct (String.eqb_spec k d); [congruence|].
      now rewrite String.eqb_refl.
    + destruct (String.eqb_spec k0 d); [contradiction|].
      destruct (String.eqb_spec k0 k); [contradiction|].
      now rewrite IH.
Qed.

Lemma set_assign_present (d : string) (v : value) (src : obj) :
  forall dst,
    get d src = None -> get d dst <> None ->
    set d v (assign dst src) = assign (set d v dst) src.
Proof.
  unfold assign.
  induction src as [|[k w] src IH]; intros dst Hsrc Hdst; [reflexivity|].
  simpl in Hsrc |- *. destruct (String.eqb_spec k d) as [->|Hne];
    [discriminate|].
  rewrite IH.
  - now rewrite set_present_commutes by congruence.
  - exact Hsrc.
  - rewrite get_set_ne by exact Hne. exact Hdst.
Qed.

(** Writing a key of the query and then copying the query is the same as
    copying it first and writing the key afterwards. *)
Lemma assign_set (d : string) (v : value) (src : obj) :
  wf_obj src ->
  forall dst, assign dst (set d v src) = set d v (assign dst src).
Proof.
  unfold wf_obj.
  induction src as [|[k w] src IH]; intros Hwf dst; [reflexivity|].
  apply NoDup_cons in Hwf as [Hnin Hwf]. simpl.
  destruct (String.eqb_spec k d) as [->|Hne].
  - change (assign dst ((d, v) :: src)) with (assign (set d v dst) src).
    change (assign dst ((d, w) :: src)) with (assign (set d w dst) src).
    rewrite set_assign_present.
    + now rewrite set_set_same.
    + apply get_None_keys. intros Hin. apply Hnin. now apply list_elem_of_In.
    + now rewrite get_set_eq.
  - change (assign dst ((k, w) :: set d v src))
      with (assign (set k w dst) (set d v src)).
    change (assign dst ((k, w) :: src)) with (assign (set k w dst) src).
    now apply IH.
Qed.

Lemma keys_set (k : string) (v : value) (o : obj) :
  keys (set k v o)
    = match get k o with
      | Some _ => keys o
      | None => (keys o ++ [k])%list
      end.
Proof.
  destruct (get k o) eqn:Hget.
  - apply keys_set_present. congruence.
  - rewrite set_fresh by exact Hget. unfold keys. now rewrite map_app.
Qed.

(** Visiting one of the two dropped keys does nothing, whatever the
    filters hold. *)
Lemma visitFilter_dropped (currentFilters acc : obj) (d : string) :
  d = "p" \/ d = "navigationId" ->
  visitFilter currentFilters acc d = acc.
Proof.
  intros [->| ->]; unfold visitFilter;
    now destruct (truthy (prop _ (VObj currentFilters))).
Qed.

Lemma visitFilter_ext (cf cf' acc : obj) (k : string) :
  prop k (VObj cf') = prop k (VObj cf) ->
  visitFilter cf' acc k = visitFilter cf acc k.
Proof. intros H. unfold visitFilter. now rewrite H. Qed.

Lemma fold_visitFilter_set (cf : obj) (d : string) (v : value)
    (objectKeys : list string) :
  d = "p" \/ d = "navigationId" ->
  forall acc,
    fold_left (visitFilter (set d v cf)) objectKeys acc
      = fold_left (visitFilter cf) objectKeys acc.
Proof.
  intros Hd. induction objectKeys as [|k rest IH]; intros acc; [reflexivity|].
  simpl. rewrite IH. f_equal.
  destruct (string_dec k d) as [->|Hne].
  - now rewrite !visitFilter_dropped.
  - apply visitFilter_ext. now apply prop_set_ne.
Qed.

(** X14. The page and the navigation id of the query have no bearing on the
    current filters: writing ["p"] (or ["navigationId"]) into the
    navigation query, as [changeCurrentPage] does, leaves
    [getCurrentFilters] exactly as it was. *)
Theorem paging_keeps_the_current_filters
    (listingKey : string) (s t : State) (d : string) (v : value) :
  d = "p" \/ d = "navigationId" ->
  wf_obj (currentQuery s) ->
  getCurrentListing listingKey t = getCurrentListing listingKey s ->
  currentQuery t = set d v (currentQuery s) ->
  getCurrentFilters listingKey t = getCurrentFilters listingKey s.
Proof.
  intros Hd Hwf Hlisting Hquery.
  assert (mergedFilters listingKey t = set d v (mergedFilters listingKey s))
    as Hmerged.
  { unfold mergedFilters, spread. simpl. rewrite Hlisting, Hquery.
    now apply assign_set. }
  unfold getCurrentFilters. rewrite Hmerged, keys_set.
  destruct (get d (mergedFilters listingKey s)).
  - now apply fold_visitFilter_set.
  - rewrite fold_left_app. simpl.
    rewrite visitFilter_dropped by exact Hd.
    now apply fold_visitFilter_set.
Qed.

Lemma getCurrentFilters_values_are_truthy_witness :
  get "min-price" (getCurrentFilters "category" Scenarios.filteredState)
    = Some (VNum 5) /\
  truthy (VNum 5) = true.
Proof.
  split; [reflexivity|].
  apply (getCurrentFilters_values_are_truthy "category"
           Scenarios.filteredState "min-price" (VNum 5)).
  reflexivity.
Defined.

Lemma getCurrentFilters_round_trip_witness :
  let filters := getCurrentFilters "category" Scenarios.filteredState in
  getCurrentFilters "category" (mkState false false ∅ ∅ filters [] [])
    = [("min-price", VNum 5); ("max-price", VNum 20);
       ("manufacturer", VStr "m2")].
Proof.
  intros filters.
  rewrite (getCurrentFilters_round_trip "category" Scenarios.filteredState
             (mkState false false ∅ ∅ filters [] [])).
  - reflexivity.
  - reflexivity.
  - reflexivity.
Defined.

Lemma paging_keeps_the_current_filters_witness :
  getCurrentFilters "category"
    (Examples.browsing Examples.filtered
       [("manufacturer", VStr "m2"); ("p", VNum 3)])
  = getCurrentFilters "category" Scenarios.filteredState.
Proof.
  apply (paging_keeps_the_current_filters "category"
           Scenarios.filteredState _ "p" (VNum 3)).
  - now left.
  - solve_wf.
  - reflexivity.
  - reflexivity.
Defined.

End FilterInvariants.

(** ** The derived views at the edges *)

Module ViewFacts.
Import JS Listing ObjFacts ListingFacts.

#[local] Arguments Lodash.merge : simpl never.
#[local] Arguments spread : simpl never.
#[local] Arguments prop : simpl never.

(** X15. Before anything is stored under the listing key, the current listing
    is the empty object and every view gives its default: no elements,
    total 0, page 1, the default limit (or 10), no sortings; a [loadMore]
    from there asks for page 2. *)
Theorem views_before_any_listing
    (searchDefaults : value) (listingKey : string) (s : State) :
  initialListings s !! listingKey = None ->
  appliedListings s !! listingKey = None ->
  getCurrentListing listingKey s = VObj [] /\
  getElements listingKey s = VArr [] /\
  getTotal listingKey s = VNum 0 /\
  getCurrentPage listingKey s = VNum 1 /\
  getSortingOrders listingKey s = VArr [] /\
  getLimit searchDefaults listingKey s
    = or (optProp "limit" searchDefaults) (VNum 10) /\
  requestOf searchDefaults listingKey LoadMore s
    = VObj (Lodash.merge []
              [searchDefaults;
               VObj (set "p" (VNum 2) (spread [VObj (currentQuery s)]))]).
Proof.
  intros Hinit Happlied.
  assert (getCurrentListing listingKey s = VObj []) as Hcur.
  { unfold getCurrentListing, appliedListing, getInitialListing, slot.
    now rewrite Hinit, Happlied. }
  destruct (views_of_empty_listing searchDefaults listingKey s Hcur)
    as (Helements & Htotal & Hlimit & Hpage & Hsort & _).
  unfold requestOf. rewrite Hpage. easy.
Qed.

Lemma pages_of_counts
    (searchDefaults : value) (listingKey : string) (s : State) :
  let cur := getCurrentListing listingKey s in
  countOrAbsent (prop "total" cur) = true ->
  countOrAbsent (prop "limit" cur) = true ->
  countOrAbsent (optProp "limit" searchDefaults) = true ->
  exists total limit : Z,
    0 <= total /\ 0 < limit /\
    getTotal listingKey s = VNum total /\
    getTotalPagesCount searchDefaults listingKey s
      = Some (VNum (- ((- total) / limit))).
Proof.
  intros cur Ht Hl Hd. unfold getTotalPagesCount, getLimit, getTotal.
  fold cur.
  assert (exists total, or (prop "total" cur) (VNum 0) = VNum total
                        /\ 0 <= total) as (total & -> & Htotal).
  { apply countOrAbsent_cases in Ht as [->|(n & -> & Hn)].
    - exists 0. split; [reflexivity | lia].
    - unfold or. simpl. destruct (Z.eqb_spec n 0) as [->|]; simpl;
        [exists 0 | exists n]; split; (reflexivity || lia). }
  assert (exists limit,
             or (or (prop "limit" cur) (optProp "limit" searchDefaults))
               (VNum 10) = VNum limit /\ 0 < limit)
    as (limit & -> & Hlimit).
  { apply countOrAbsent_cases in Hl as [->|(a & -> & Ha)];
    apply countOrAbsent_cases in Hd as [->|(b & -> & Hb)].
    - exists 10. split; [reflexivity | lia].
    - destruct (limit_chain 0 b ltac:(lia) Hb) as (l & Hl & Hpos).
      exists l. split; [exact Hl | exact Hpos].
    - destruct (limit_chain a 0 Ha ltac:(lia)) as (l & Hl & Hpos).
      exists l. split; [|exact Hpos]. rewrite <- Hl. unfold or. simpl.
      now destruct (a =? 0).
    - now apply limit_chain. }
  exists total, limit. repeat split; try assumption.
  unfold ceilDiv, ceilDivNum. simpl.
  destruct (Z.eqb_spec limit 0); [lia | reflexivity].
Qed.

(** X16. When the total and the limits are counts (or missing), there are no
    pages exactly when there are no elements in total, and there are never
    more pages than elements. *)
Theorem no_pages_iff_no_elements
    (searchDefaults : value) (listingKey : string) (s : State) :
  let cur := getCurrentListing listingKey s in
  countOrAbsent (prop "total" cur) = true ->
  countOrAbsent (prop "limit" cur) = true ->
  countOrAbsent (optProp "limit" searchDefaults) = true ->
  exists total pages : Z,
    getTotal listingKey s = VNum total /\
    getTotalPagesCount searchDefaults listingKey s = Some (VNum pages) /\
    (pages = 0 <-> total = 0) /\
    0 <= pages <= total.
Proof.
  intros cur Ht Hl Hd.
  destruct (pages_of_counts searchDefaults listingKey s Ht Hl Hd)
    as (total & limit & Htotal & Hlimit & Hget & Hpages).
  exists total, (- ((- total) / limit)).
  split; [exact Hget|]. split; [exact Hpages|].
  destruct (ceil_quotient total limit Htotal Hlimit) as [Hnat Hbounds].
  cbv zeta in Hnat, Hbounds. split; [split|]; nia.
Qed.

(** X17. After a successful [changeCurrentPage(pageNumber)] the current page is
    the page the result reports (1 when it reports none), not the page
    that was asked for, and the elements are the result's alone. *)
Theorem current_page_follows_the_result
    (searchMethod : value -> settled) (searchDefaults : value)
    (listingKey : string) (navigation : obj -> option value)
    (pageNumber : value) (s : State) (r : obj) :
  searchMethod
    (VObj (Lodash.merge []
             [searchDefaults;
              VObj (set "p" (or pageNumber (VNum 1))
                      (spread [VObj (currentQuery s)]))]))
    = Resolved (VObj r) ->
  let out :=
    changeCurrentPage searchMethod searchDefaults listingKey navigation
      pageNumber s in
  fst out = Ok tt /\
  getCurrentPage listingKey (snd out) = or (prop "page" (VObj r)) (VNum 1) /\
  getElements listingKey (snd out)
    = or (prop "elements" (VObj r)) (VArr []).
Proof.
  intros Hres out. subst out.
  unfold changeCurrentPage, search, tryCatchFinally, bind, catch,
    awaitSearch, routerReplace, setAppliedListing, commitAppliedListing,
    setLoading, modify, throw, ret, getState.
  change (is_true (optProp "preventRouteChange" VUndef)) with false.
  cbn.
  destruct (navigation _); cbn; rewrite Hres; cbn;
    unfold getCurrentPage, getElements, getCurrentListing, appliedListing;
    cbn; rewrite slot_insert; repeat split.
Qed.

Lemma views_before_any_listing_witness :
  getCurrentListing "category" Examples.fresh = VObj [] /\
  getElements "category" Examples.fresh = VArr [] /\
  getCurrentPage "category" Examples.fresh = VNum 1.
Proof.
  destruct (views_before_any_listing Examples.defaults "category"
              Examples.fresh) as (Hcur & Helements & _ & Hpage & _).
  - reflexivity.
  - reflexivity.
  - split; [exact Hcur|]. split; [exact Helements | exact Hpage].
Defined.

Lemma no_pages_iff_no_elements_witness :
  exists total pages : Z,
    getTotal "category" (Examples.browsing Examples.firstPage [])
      = VNum total /\
    getTotalPagesCount Examples.defaults "category"
      (Examples.browsing Examples.firstPage []) = Some (VNum pages) /\
    (pages = 0 <-> total = 0) /\
    0 <= pages <= total.
Proof.
  apply (no_pages_iff_no_elements Examples.defaults "category"
           (Examples.browsing Examples.firstPage [])); reflexivity.
Defined.

Lemma current_page_follows_the_result_witness :
  let out :=
    changeCurrentPage (Examples.resolving Examples.secondPage)
      Examples.defaults "category" Examples.confirmed (VNum 7)
      (Examples.browsing Examples.firstPage []) in
  fst out = Ok tt /\
  getCurrentPage "category" (snd out) = VNum 2 /\
  getElements "category" (snd out) = VArr [VStr "d"; VStr "e"].
Proof.
  apply (current_page_follows_the_result
           (Examples.resolving Examples.secondPage) Examples.defaults
           "category" Examples.confirmed (VNum 7)
           (Examples.browsing Examples.firstPage []) Examples.secondPage).
  reflexivity.
Defined.

End ViewFacts.
